(** * shis2mirto: the FOV conversion of [create_fov_file]

    A shallow embedding of the channel matcher, the geometry filter, the
    observation subsetter and the time normaliser of
    [shis2mirto/conversion.py], with the netCDF output file modelled as
    explicit state.

    Numeric data: wavenumbers, angles, positions and radiances are
    floating-point values ([f4] or [f8]).  Any finite set of such values
    is a set of integer multiples of one power of two, so a run keeps them
    as [Z]: the integer [z] stands for [z * 2^unit_exp], with [unit_exp]
    fixed for the run (-1074 suffices for every double).  Copies and
    comparisons of these values are exact.  The arithmetic of the source is
    not: [Float.fl] rounds an exact result to the nearest value of
    [float32] or [float64] (ties to even), and the matcher's differences
    and the bounds [center_angle -/+ angle_range] of the geometry filter
    are rounded with it, in the format NumPy computes them in
    ([Float.Dtypes] names the formats of a run).  Times are kept as [Q],
    and rounded by [Time.float_round] where the source computes with
    floats: the epoch sums, the microseconds of [datetime.fromtimestamp]
    and the [float32] buffer [matlab_times]. *)

From Stdlib Require Import ZArith QArith Qround Qabs Qfield Lqa List Bool Lia.
From Stdlib Require String Ascii.
Import ListNotations.
Open Scope Z_scope.

(** ** List helpers used by the embedding *)

(** [xs[i] = v] for an index in range; the source only assigns in range. *)
Fixpoint set_nth {A} (n : nat) (v : A) (xs : list A) : list A :=
  match xs, n with
  | [], _ => []
  | _ :: xs', O => v :: xs'
  | x :: xs', S n' => x :: set_nth n' v xs'
  end.

(** ** Python and numpy behaviour used by [create_fov_file] *)

(** The exceptions the conversion can raise. *)
Inductive py_error : Type := ValueError | IndexError | TypeError.

(** A computation that returns a value or raises. *)
Inductive result (A : Type) : Type :=
| Ok (a : A)
| Err (e : py_error).
Arguments Ok {A} a.
Arguments Err {A} e.

Module Np.

(** [numpy.min]: raises [ValueError] on an empty array. *)
Fixpoint min_from (m : Z) (xs : list Z) : Z :=
  match xs with [] => m | x :: xs' => min_from (Z.min m x) xs' end.

Definition np_min (xs : list Z) : result Z :=
  match xs with [] => Err ValueError | x :: xs' => Ok (min_from x xs') end.

(** [numpy.sort] (ascending), as an insertion sort. *)
Fixpoint insert_sorted (x : Z) (xs : list Z) : list Z :=
  match xs with
  | [] => [x]
  | y :: ys => if x <=? y then x :: xs else y :: insert_sorted x ys
  end.

Fixpoint np_sort (xs : list Z) : list Z :=
  match xs with [] => [] | x :: xs' => insert_sorted x (np_sort xs') end.

(** [numpy.sum] of a boolean array. *)
Fixpoint count_true (mask : list bool) : nat :=
  match mask with [] => O | b :: m => (if b then 1 else 0) + count_true m end.

(** The elements kept by a boolean mask, in order. *)
Fixpoint mask_select {A} (xs : list A) (mask : list bool) : list A :=
  match xs, mask with
  | x :: xs', b :: mask' => if b then x :: mask_select xs' mask' else mask_select xs' mask'
  | _, _ => []
  end.

(** [xs[mask]]: numpy raises [IndexError] when the lengths differ. *)
Definition bool_index {A} (xs : list A) (mask : list bool) : result (list A) :=
  if Nat.eqb (length xs) (length mask) then Ok (mask_select xs mask) else Err IndexError.

(** [xs[i]] for one integer index, negative indices counting from the end. *)
Definition np_get {A} (xs : list A) (i : Z) : result A :=
  let n := Z.of_nat (length xs) in
  if (0 <=? i) && (i <? n) then
    match nth_error xs (Z.to_nat i) with Some x => Ok x | None => Err IndexError end
  else if (- n <=? i) && (i <? 0) then
    match nth_error xs (Z.to_nat (n + i)) with Some x => Ok x | None => Err IndexError end
  else Err IndexError.

(** [xs[idxs]] with an integer index array. *)
Fixpoint fancy_index {A} (xs : list A) (idxs : list Z) : result (list A) :=
  match idxs with
  | [] => Ok []
  | i :: is =>
      match np_get xs i, fancy_index xs is with
      | Ok x, Ok ys => Ok (x :: ys)
      | Err e, _ => Err e
      | _, Err e => Err e
      end
  end.

(** The accumulator [None] / [numpy.append(acc, row)] of the two radiance
    loops: [numpy.append] without an axis flattens, so the accumulator is a
    flat array. *)
Definition np_append_row (acc : option (list Z)) (row : list Z) : option (list Z) :=
  match acc with None => Some row | Some a => Some (a ++ row) end.

Fixpoint chunk (rows cols : nat) (l : list Z) : list (list Z) :=
  match rows with
  | O => []
  | S r => firstn cols l :: chunk r cols (skipn cols l)
  end.

(** [numpy.reshape(acc, (rows, cols))].  [None] becomes a 0-d object array of
    size 1, so it reshapes only to a shape of size 1, and the object array
    holding [None] is then refused ([TypeError]) when written into the [f8]
    variable; any other size mismatch raises [ValueError]. *)
Definition np_reshape (acc : option (list Z)) (rows cols : nat) : result (list (list Z)) :=
  let size := match acc with None => 1%nat | Some l => length l end in
  if Nat.eqb size (rows * cols) then
    match acc with None => Err TypeError | Some l => Ok (chunk rows cols l) end
  else Err ValueError.

End Np.

(** ** Floating-point rounding *)
Module Float.

Inductive float_format : Type := binary32 | binary64.

(** Significant bits, and the exponent of the least subnormal. *)
Definition precision (f : float_format) : Z :=
  match f with binary32 => 24 | binary64 => 53 end.

Definition min_exponent (f : float_format) : Z :=
  match f with binary32 => -149 | binary64 => -1074 end.

(** The numeric types of a run: the common unit [2^unit_exp] of its [Z]
    values and the format of each float computation of [create_fov_file]
    that rounds.
    - [wnum_arith]: [desired - temp_wnums[index]] and
      [temp_wnums[index + 1] - desired], [float32] when both wavenumber
      variables are [f4], [float64] otherwise;
    - [angle_dtype]: the type of the [FOVangle] variable; the bounds
      [center_angle -/+ angle_range] are Python floats (doubles), and NumPy
      1.x compares a [float32] array with a Python float in [float32];
    - [time_sum_arith]: [temp_time_offset + temp_base_time], [float32] when
      the offsets are [f4] and the base time fits a [float32]. *)
Class Dtypes : Type := {
  unit_exp : Z;
  wnum_arith : float_format;
  angle_dtype : float_format;
  time_sum_arith : float_format
}.

(** The multiple of [2^s] nearest to [a >= 0], ties to the even multiple. *)
Definition round_shift (a s : Z) : Z :=
  let q := a / 2 ^ s in
  let r := a mod 2 ^ s in
  let half := 2 ^ (s - 1) in
  (if r <? half then q else if half <? r then q + 1
   else if Z.even q then q else q + 1) * 2 ^ s.

Section Round.
Context {dtypes : Dtypes}.

(** The exponent, in units, of the last significant bit of [z] in format
    [f]: [precision f] bits below the leading one, but not below the
    subnormal quantum. *)
Definition fl_exp (f : float_format) (z : Z) : Z :=
  Z.max (Z.log2 (Z.abs z) + 1 - precision f) (min_exponent f - unit_exp).

(** Rounding to the nearest value of format [f], ties to even.  Overflow
    to infinity is not modelled, and does not change a comparison of the
    source: of the matcher's two differences at most one overflows, and
    then it is the larger one here too; a bound of the geometry filter
    beyond the [float32] range (NumPy then compares in [float64]) lies
    beyond every [float32] angle here as well. *)
Definition fl (f : float_format) (z : Z) : Z :=
  let s := fl_exp f z in
  if s <=? 0 then z else Z.sgn z * round_shift (Z.abs z) s.

End Round.
End Float.

(** ** Wavenumber matcher (conversion.py, lines 380-401) *)
Module Matcher.
Import Float.

Section Arith.
Context {dtypes : Dtypes}.

(** One pass of the body of [for index in range(0, temp_wnums.size - 1)].
    The state is [(found_indexes, current_target)].  The two differences
    are computed in [wnum_arith]. *)
Definition match_step (temp_wnums desired_wnums : list Z)
    (st : list Z * nat) (index : nat) : list Z * nat :=
  let '(found_indexes, current_target) := st in
  if Nat.ltb current_target (length found_indexes) then
    let desired := nth current_target desired_wnums 0 in
    let wi := nth index temp_wnums 0 in
    let wi1 := nth (S index) temp_wnums 0 in
    if desired =? wi then
      (set_nth current_target (Z.of_nat index) found_indexes, S current_target)
    else if desired =? wi1 then
      (set_nth current_target (Z.of_nat (S index)) found_indexes, S current_target)
    else if (wi <? desired) && (desired <? wi1) then
      if fl wnum_arith (desired - wi) <? fl wnum_arith (wi1 - desired) then
        (set_nth current_target (Z.of_nat index) found_indexes, S current_target)
      else
        (set_nth current_target (Z.of_nat (S index)) found_indexes, S current_target)
    else (found_indexes, current_target)
  else (found_indexes, current_target).

(** The scan, from [found_indexes = -1 * ones] and [current_target = 0]. *)
Definition match_scan (temp_wnums desired_wnums : list Z) : list Z * nat :=
  fold_left (match_step temp_wnums desired_wnums)
    (seq 0 (length temp_wnums - 1))
    (repeat (-1) (length desired_wnums), O).

Definition found_indexes (temp_wnums desired_wnums : list Z) : list Z :=
  fst (match_scan temp_wnums desired_wnums).

End Arith.

(** The grid is strictly ascending (data model of the spec). *)
Definition strictly_ascending (g : list Z) : Prop :=
  forall i, (S i < length g)%nat -> nth i g 0 < nth (S i) g 0.

End Matcher.

(** ** Geometry filter (conversion.py, lines 410-412) *)
Module Geometry.
Import Float.

(** [angle_mask = (temp_angles >= (center_angle - angle_range)) &
                  (temp_angles <= (center_angle + angle_range))]:
    the bounds are computed in [float64] (Python floats) and converted to
    the type of the angle array for the comparison. *)
Definition angle_mask `{Dtypes} (temp_angles : list Z) (center_angle angle_range : Z)
    : list bool :=
  let lo := fl angle_dtype (fl binary64 (center_angle - angle_range)) in
  let hi := fl angle_dtype (fl binary64 (center_angle + angle_range)) in
  map (fun a => (lo <=? a) && (a <=? hi)) temp_angles.

End Geometry.

(** ** Time normaliser (conversion.py, lines 37-43 and 451-456) *)
Module Time.
Local Open Scope Q_scope.

(** Python's [datetime]: the date is kept as its proleptic Gregorian
    ordinal ([toordinal], a bijection with year/month/day), the time of day
    as seconds and microseconds. *)
Record pydatetime : Type := {
  dt_ordinal : Z;       (** [toordinal()] *)
  dt_seconds : Z;       (** [3600*hour + 60*minute + second], in [0, 86400) *)
  dt_microseconds : Z   (** in [0, 10^6) *)
}.

(** Python's [timedelta], normalised as Python does. *)
Record pytimedelta : Type := {
  td_days : Z; td_seconds : Z; td_microseconds : Z
}.

Definition td_of_microseconds (us : Z) : pytimedelta :=
  {| td_days := Z.div us (86400 * 1000000);
     td_seconds := Z.div (Z.modulo us (86400 * 1000000)) 1000000;
     td_microseconds := Z.modulo us 1000000 |}.

Definition dt_total_us (t : pydatetime) : Z :=
  ((dt_ordinal t * 86400 + dt_seconds t) * 1000000 + dt_microseconds t)%Z.

(** [a - b] for two datetimes. *)
Definition dt_sub (a b : pydatetime) : pytimedelta :=
  td_of_microseconds (dt_total_us a - dt_total_us b)%Z.

(** [t + timedelta(days = n)]. *)
Definition dt_add_days (t : pydatetime) (n : Z) : pydatetime :=
  {| dt_ordinal := (dt_ordinal t + n)%Z; dt_seconds := dt_seconds t;
     dt_microseconds := dt_microseconds t |}.

(** [datetime(time.year, time.month, time.day, 0, 0, 0)]. *)
Definition dt_midnight (t : pydatetime) : pydatetime :=
  {| dt_ordinal := dt_ordinal t; dt_seconds := 0; dt_microseconds := 0 |}.

(** [datetime_to_matlab_datenum], computed exactly.  The source computes
    [seconds / 86400.0] and the sum in [float64]; the value is then stored
    through the [float32] buffer, and the two double roundings never change
    that [float32] value: for a value in [[2^k, 2^(k+1))] they move it by
    less than [2^(k-52)], while a value [n / 86400] that is not a [float32]
    rounding midpoint lies at least [2^(k-24) / 86400] away from one. *)
Definition datetime_to_matlab_datenum (time : pydatetime) : Q :=
  let base_date_num := dt_ordinal (dt_add_days time 366) in
  let additional_seconds :=
    inject_Z (td_seconds (dt_sub time (dt_midnight time))) / (24 * 60 * 60) in
  inject_Z base_date_num + additional_seconds.

(** Truncation toward zero ([(time_t) timestamp]). *)
Definition qtrunc (q : Q) : Z :=
  if Qle_bool 0 q then Qfloor q else (- Qfloor (- q))%Z.

(** [toordinal()] of 1970-01-01. *)
Definition epoch_ordinal : Z := 719163.

(** Rounding of a rational to the significant bits of a format, ties to
    even, with an unbounded exponent.  This is the rounding of IEEE 754 for
    the epoch sums and [fraction * 1e6] of the run: a sum below the normal
    range is exact, and a product below it gives 0 microseconds either
    way. *)
Definition pow2Q (e : Z) : Q :=
  if (0 <=? e)%Z then inject_Z (2 ^ e) else 1 # Z.to_pos (2 ^ (- e)).

Definition round_half_even (q : Q) : Z :=
  let fl := Qfloor q in
  match Qcompare (q - inject_Z fl) (1 # 2) with
  | Lt => fl
  | Gt => (fl + 1)%Z
  | Eq => if Z.even fl then fl else (fl + 1)%Z
  end.

Definition round_prec_pos (p : Z) (q : Q) : Q :=
  let e0 := (Z.log2 (Qnum q) - Z.log2 (Zpos (Qden q)) - (p - 1))%Z in
  let e := if negb (Qle_bool (inject_Z (2 ^ (p - 1))) (q / pow2Q e0)) then (e0 - 1)%Z else e0 in
  inject_Z (round_half_even (q / pow2Q e)) * pow2Q e.

Definition float_round (f : Float.float_format) (q : Q) : Q :=
  match Qnum q with
  | Z0 => 0
  | Zpos _ => round_prec_pos (Float.precision f) q
  | Zneg _ => - round_prec_pos (Float.precision f) (- q)
  end.

(** Rounding to [numpy.float32] (24 significant bits, ties to even), for
    the buffer [matlab_times]; the exponent range is not modelled (the
    values stored there are calendar serials near 7.4e5). *)
Definition f32_round_pos (q : Q) : Q :=
  let e0 := (Z.log2 (Qnum q) - Z.log2 (Zpos (Qden q)) - 23)%Z in
  let e := if negb (Qle_bool (inject_Z (2 ^ 23)) (q / pow2Q e0)) then (e0 - 1)%Z else e0 in
  inject_Z (round_half_even (q / pow2Q e)) * pow2Q e.

Definition f32_round (q : Q) : Q :=
  match Qnum q with
  | Z0 => 0
  | Zpos _ => f32_round_pos q
  | Zneg _ => - f32_round_pos (- q)
  end.

(** [round_to_long] of CPython 2.7's [datetimemodule.c]:
    [floor(x + 0.5)] or [ceil(x - 0.5)], the sum computed in double. *)
Definition round_to_long (x : Q) : Z :=
  if Qle_bool 0 x then Qfloor (float_round Float.binary64 (x + (1 # 2)))
  else Qceiling (float_round Float.binary64 (x - (1 # 2))).

(** [datetime.fromtimestamp(t)] in the local zone, as
    [datetime_from_timestamp] of CPython 2.7.  [tz] gives the offset of
    local time from UTC, in seconds, at a given POSIX second (the platform
    [localtime]).  [fraction = timestamp - (double)timet] is exact;
    [fraction * 1e6] is rounded to a double and then to microseconds by
    [round_to_long], and a negative count or a carry of a whole second is
    propagated. *)
Definition fromtimestamp (tz : Z -> Z) (timestamp : Q) : pydatetime :=
  let timet := qtrunc timestamp in
  let fraction := timestamp - inject_Z timet in
  let us := round_to_long (float_round Float.binary64 (fraction * 1000000)) in
  let '(timet, us) :=
    if (us <? 0)%Z then ((timet - 1)%Z, (us + 1000000)%Z)
    else if (us =? 1000000)%Z then ((timet + 1)%Z, 0%Z) else (timet, us) in
  let wall := (timet + tz timet)%Z in
  {| dt_ordinal := (Z.div wall 86400 + epoch_ordinal)%Z;
     dt_seconds := Z.modulo wall 86400;
     dt_microseconds := us |}.

End Time.

(** ** Names of [shis2mirto/guidebook.py] *)
Module Guidebook.
Import String.
Local Open Scope string_scope.
Definition OUT_FOV_OBS_NUM_DIM_NAME : String.string := "obsnum".
Definition OUT_FOV_NUM_CHANNELS_DIM_NAME : String.string := "channels".
Definition OUT_FOV_NUM_SELECTED_CHANNELS_DIM_NAME : String.string := "selected_channels".
Definition OUT_FOV_LON_VAR_NAME : String.string := "Longitude".
Definition OUT_FOV_LAT_VAR_NAME : String.string := "Latitude".
Definition OUT_FOV_BASE_TIME_VAR_NAME : String.string := "base_time".
Definition OUT_FOV_TIME_OFFSET_VAR_NAME : String.string := "time_offset".
Definition OUT_FOV_MATLAB_DATENUM_TIME_VAR_NAME : String.string := "TimeFracDay".
Definition OUT_FOV_FOV_ANGLE_VAR_NAME : String.string := "FOVangle".
Definition OUT_FOV_RADIANCE_VAR_NAME : String.string := "Radiance".
Definition OUT_FOV_WAVE_NUMBER_VAR_NAME : String.string := "Wavenumber".
Definition OUT_FOV_SELECTED_WAVE_NUMBER_VAR_NAME : String.string := "SelWavenumber".
Definition OUT_FOV_SELECTED_CHANNEL_IDX_VAR_NAME : String.string := "indxselchannel".
Definition OUT_FOV_SELECTED_RADIANCE_VAR_NAME : String.string := "selradiances".
End Guidebook.

(** ** The output netCDF file as state *)
Module Nc.

(** The contents written into a variable. *)
Inductive ncdata : Type :=
| NcZ (l : list Z)              (** a 1-D numeric variable *)
| NcQ (l : list Q)              (** a 1-D time variable *)
| NcScalar (q : Q)              (** a scalar variable ([assignValue]) *)
| NcZZ (m : list (list Z)).     (** a 2-D variable, row by row *)

(** A netCDF file as written so far: its dimensions and its variables, in
    the order they were created. *)
Record ncfile : Type := { nc_dims : list (String.string * nat);
                          nc_vars : list (String.string * ncdata) }.

Fixpoint assoc {A} (k : String.string) (l : list (String.string * A)) : option A :=
  match l with
  | [] => None
  | (k', v) :: l' => if String.eqb k k' then Some v else assoc k l'
  end.

Definition dim (f : ncfile) (name : String.string) : option nat := assoc name (nc_dims f).
Definition var (f : ncfile) (name : String.string) : option ncdata := assoc name (nc_vars f).

(** The conversion runs in a state and error monad over the output file
    [fov.nc]: [None] while the file does not exist. *)
Definition FovM (A : Type) : Type := option ncfile -> result A * option ncfile.

Definition ret {A} (a : A) : FovM A := fun s => (Ok a, s).

Definition bind {A B} (m : FovM A) (k : A -> FovM B) : FovM B :=
  fun s => match m s with (Ok a, s') => k a s' | (Err e, s') => (Err e, s') end.

Definition lift {A} (r : result A) : FovM A := fun s => (r, s).

(** [nc.Dataset(path, 'w', format="NETCDF3_CLASSIC")]: create or truncate. *)
Definition create : FovM unit :=
  fun _ => (Ok tt, Some {| nc_dims := []; nc_vars := [] |}).

(** [createDimension]; a size of 0 is stored as the current length 0 of an
    unlimited dimension. *)
Definition create_dimension (name : String.string) (size : nat) : FovM unit :=
  fun s => match s with
        | Some f => (Ok tt, Some {| nc_dims := nc_dims f ++ [(name, size)];
                                    nc_vars := nc_vars f |})
        | None => (Ok tt, None)
        end.

(** [createVariable] followed by the assignment of its data. *)
Definition write_var (name : String.string) (d : ncdata) : FovM unit :=
  fun s => match s with
        | Some f => (Ok tt, Some {| nc_dims := nc_dims f;
                                    nc_vars := nc_vars f ++ [(name, d)] |})
        | None => (Ok tt, None)
        end.

End Nc.

Notation "'let*' x := c1 'in' c2" := (Nc.bind c1 (fun x => c2))
  (at level 200, x name, c1 at level 100, c2 at level 200).

(** ** [create_fov_file] (conversion.py, lines 353-511) *)
Module Conversion.
Import Np Nc Guidebook.

(** The command-line options read by [create_fov_file]. *)
Record fov_options : Type := {
  shis_input : option String.string;
  wnum_input : option String.string;
  center_fov_angle : Z;
  fov_angle_range : Z
}.

(** The variables read from the SHIS input file. *)
Record shis_file : Type := {
  sd_wavenumber : list Z;
  sd_FOVangle : list Z;
  sd_radiance : list (list Z);
  sd_Longitude : list Z;
  sd_Latitude : list Z;
  sd_base_time : list Q;
  sd_time_offset : list Q
}.

(** [for record_index in range(0, rad_shape[0]): if angle_mask[record_index]: ...] *)
Fixpoint collect_obs_radiances (rows : list (list Z)) (angle_mask : list bool)
    (record_index : nat) (acc : option (list Z)) : result (option (list Z)) :=
  match rows with
  | [] => Ok acc
  | row :: rows' =>
      match nth_error angle_mask record_index with
      | None => Err IndexError
      | Some true =>
          collect_obs_radiances rows' angle_mask (S record_index) (np_append_row acc row)
      | Some false => collect_obs_radiances rows' angle_mask (S record_index) acc
      end
  end.

(** [for obs_number in range(0, num_obs): ... all_obs_radiances[obs_number][found_indexes]] *)
Fixpoint collect_selected (all_obs_radiances : list (list Z)) (found_indexes : list Z)
    (obs_numbers : list nat) (acc : option (list Z)) : result (option (list Z)) :=
  match obs_numbers with
  | [] => Ok acc
  | obs_number :: rest =>
      match np_get all_obs_radiances (Z.of_nat obs_number) with
      | Err e => Err e
      | Ok row =>
          match fancy_index row found_indexes with
          | Err e => Err e
          | Ok sel => collect_selected all_obs_radiances found_indexes rest (np_append_row acc sel)
          end
      end
  end.

(** The per-observation calendar serial, stored through the [float32]
    buffer [matlab_times]. *)
Definition matlab_time (tz : Z -> Z) (epoch_secs : Q) : Q :=
  Time.f32_round (Time.datetime_to_matlab_datenum (Time.fromtimestamp tz epoch_secs)).

Section Run.
Context {dtypes : Float.Dtypes}.

(** The run.  [total_epoc_secs] is computed in [time_sum_arith]. *)
Definition create_fov_file (tz : Z -> Z) (options : fov_options) (shis : shis_file)
    (wn_base : list Z) : FovM unit :=
  match shis_input options, wnum_input options with
  | None, _ | _, None => ret tt
  | Some _, Some _ =>
    let center_angle := center_fov_angle options in
    let angle_range := fov_angle_range options in
    let desired_wnums := np_sort wn_base in
    let temp_wnums := sd_wavenumber shis in
    let found_indexes := Matcher.found_indexes temp_wnums desired_wnums in
    let* m := lift (np_min found_indexes) in
    if m <? 0 then ret tt else
    let temp_angles := sd_FOVangle shis in
    let angle_mask := Geometry.angle_mask temp_angles center_angle angle_range in
    let num_obs := count_true angle_mask in
    let num_channels := length temp_wnums in
    let num_selected_channels := length found_indexes in
    let* _ := create in
    let* _ := create_dimension OUT_FOV_OBS_NUM_DIM_NAME num_obs in
    let* _ := create_dimension OUT_FOV_NUM_CHANNELS_DIM_NAME num_channels in
    let* _ := create_dimension OUT_FOV_NUM_SELECTED_CHANNELS_DIM_NAME num_selected_channels in
    let* temp_lon := lift (bool_index (sd_Longitude shis) angle_mask) in
    let* _ := write_var OUT_FOV_LON_VAR_NAME (NcZ temp_lon) in
    let* temp_lat := lift (bool_index (sd_Latitude shis) angle_mask) in
    let* _ := write_var OUT_FOV_LAT_VAR_NAME (NcZ temp_lat) in
    let* temp_base_time := lift (np_get (sd_base_time shis) 0) in
    let* _ := write_var OUT_FOV_BASE_TIME_VAR_NAME (NcScalar temp_base_time) in
    let* temp_time_offset := lift (bool_index (sd_time_offset shis) angle_mask) in
    let* _ := write_var OUT_FOV_TIME_OFFSET_VAR_NAME (NcQ temp_time_offset) in
    let total_epoc_secs :=
      map (fun o => Time.float_round Float.time_sum_arith (o + temp_base_time)) temp_time_offset in
    let matlab_times := map (matlab_time tz) total_epoc_secs in
    let* _ := write_var OUT_FOV_MATLAB_DATENUM_TIME_VAR_NAME (NcQ matlab_times) in
    let* temp_fov_angles := lift (bool_index temp_angles angle_mask) in
    let* _ := write_var OUT_FOV_FOV_ANGLE_VAR_NAME (NcZ temp_fov_angles) in
    let* acc := lift (collect_obs_radiances (sd_radiance shis) angle_mask 0 None) in
    let* all_obs_radiances := lift (np_reshape acc num_obs num_channels) in
    let* _ := write_var OUT_FOV_RADIANCE_VAR_NAME (NcZZ all_obs_radiances) in
    let temp_all_wavenums := sd_wavenumber shis in
    let* _ := write_var OUT_FOV_WAVE_NUMBER_VAR_NAME (NcZ temp_all_wavenums) in
    let* selected_wavenums := lift (fancy_index temp_all_wavenums found_indexes) in
    let* _ := write_var OUT_FOV_SELECTED_WAVE_NUMBER_VAR_NAME (NcZ selected_wavenums) in
    let* _ := write_var OUT_FOV_SELECTED_CHANNEL_IDX_VAR_NAME
           (NcZ (map (fun i => i + 1) found_indexes)) in
    let* sel_acc := lift (collect_selected all_obs_radiances found_indexes (seq 0 num_obs) None) in
    let* selected_radiances := lift (np_reshape sel_acc num_obs num_selected_channels) in
    let* _ := write_var OUT_FOV_SELECTED_RADIANCE_VAR_NAME (NcZZ selected_radiances) in
    ret tt
  end.

End Run.
End Conversion.

(** ** [os.path] of CPython 2.7 ([Lib/posixpath.py]), as used by [clean_path] *)
Module PosixPath.
Import String Ascii.
Local Open Scope string_scope.

(** [str.split('/')] *)
Fixpoint split (s : string) : list string :=
  match s with
  | EmptyString => [""]
  | String c rest =>
      if Ascii.eqb c "/"%char then "" :: split rest
      else match split rest with
           | [] => [String c ""]
           | w :: ws => String c w :: ws
           end
  end.

(** ['/'.join(comps)] *)
Fixpoint join_slash (comps : list string) : string :=
  match comps with
  | [] => ""
  | [w] => w
  | w :: ws => w ++ "/" ++ join_slash ws
  end.

(** [path.endswith('/')] *)
Fixpoint endswith_slash (s : string) : bool :=
  match s with
  | EmptyString => false
  | String c EmptyString => Ascii.eqb c "/"%char
  | String _ rest => endswith_slash rest
  end.

(** [isabs(s)]: [s.startswith('/')] *)
Definition isabs (s : string) : bool := prefix "/" s.

(** [join(a, b)] *)
Definition join (a b : string) : string :=
  if prefix "/" b then b
  else if (a =? "") || endswith_slash a then a ++ b
  else a ++ "/" ++ b.

(** One turn of the loop [for comp in comps] of [normpath]. *)
Definition normpath_step (initial_slashes : nat) (new_comps : list string) (comp : string)
    : list string :=
  if (comp =? "") || (comp =? ".") then new_comps
  else if negb (comp =? "..")
          || (Nat.eqb initial_slashes 0 && (match new_comps with [] => true | _ => false end))
          || ((match new_comps with [] => false | _ => true end) && (last new_comps "" =? ".."))
  then new_comps ++ [comp]
  else match new_comps with
       | [] => new_comps
       | _ => removelast new_comps
       end.

(** [slash*initial_slashes] *)
Fixpoint slashes (n : nat) : string :=
  match n with O => "" | S n' => "/" ++ slashes n' end.

(** [normpath(path)] *)
Definition normpath (path : string) : string :=
  if path =? "" then "." else
  let initial_slashes :=
    if prefix "/" path then
      (if prefix "//" path && negb (prefix "///" path) then 2 else 1)%nat
    else 0%nat in
  let comps := fold_left (normpath_step initial_slashes) (split path) [] in
  let path := join_slash comps in
  let path := slashes initial_slashes ++ path in
  if path =? "" then "." else path.

(** [abspath(path)], with [cwd] the result of [os.getcwd()]. *)
Definition abspath (cwd path : string) : string :=
  let path := if negb (isabs path) then join cwd path else path in
  normpath path.

End PosixPath.

(** ** [clean_path] (conversion.py, lines 50-58) *)
Module CleanPath.

(** [expanduser] is [os.path.expanduser], which reads [HOME] and the
    password database, and [cwd] is [os.getcwd()]. *)
Definition clean_path (expanduser : String.string -> String.string) (cwd : String.string)
    (string_path : option String.string) : option String.string :=
  match string_path with
  | None => None
  | Some p => Some (PosixPath.abspath cwd (expanduser p))
  end.

End CleanPath.

(** ** Row correspondence of a subset *)
Module Subset.

(** The original row numbers at which the mask is true, in original order:
    row [k] of a subsetted array is meant to be original row
    [nth k (true_positions mask) 0]. *)
Definition true_positions (mask : list bool) : list nat :=
  filter (fun i => nth i mask false) (seq 0 (length mask)).

(** Column [j] of a selected row is column [channel_index_map[j]] of the
    full row. *)
Definition select_columns (channel_index_map : list Z) (row : list Z) : list Z :=
  map (fun i => nth (Z.to_nat i) row 0) channel_index_map.

End Subset.

(** ** The states of the matching scan *)
Module MatcherSpec.
Import Float Matcher.
Section Scan.
Context {dtypes : Dtypes}.
Variables temp_wnums desired_wnums : list Z.
Local Abbreviation g i := (nth i temp_wnums 0).

(** What one matching step may store for the desired value [x] at grid
    index [idx]: the three branches of the loop body. *)
Definition chosen (x : Z) (idx : nat) (v : Z) : Prop :=
  (x = g idx /\ v = Z.of_nat idx) \/
  (x <> g idx /\ x = g (S idx) /\ v = Z.of_nat (S idx)) \/
  (x <> g idx /\ x <> g (S idx) /\ g idx < x < g (S idx) /\
   v = if fl wnum_arith (x - g idx) <? fl wnum_arith (g (S idx) - x)
       then Z.of_nat idx else Z.of_nat (S idx)).

Definition scan_upto (n : nat) : list Z * nat :=
  fold_left (match_step temp_wnums desired_wnums) (seq 0 n)
    (repeat (-1) (length desired_wnums), O).

(** The invariant of the scan after the grid indices [0 .. n-1]. *)
Definition scan_inv (n : nat) (st : list Z * nat) : Prop :=
  let '(f, ct) := st in
  length f = length desired_wnums /\
  (ct <= n)%nat /\ (ct <= length f)%nat /\
  (forall j, (ct <= j < length f)%nat -> nth j f 0 = -1) /\
  (forall j, (j < ct)%nat ->
     exists idx, (idx < n)%nat /\ chosen (nth j desired_wnums 0) idx (nth j f 0)) /\
  (forall j, (j < ct)%nat -> 0 <= nth j f 0 <= Z.of_nat n) /\
  (forall j, (S j < ct)%nat -> nth j f 0 <= nth (S j) f 0).

End Scan.
End MatcherSpec.

(** ** Concrete runs *)
Module Examples.
Import Conversion.

Module Paths.
Import String.
Local Open Scope string_scope.
Definition shis_path : String.string := "shis_sample.nc".
Definition wnum_path : String.string := "in_wn.nc".
End Paths.

(** The numeric types of the examples: values in units of 1 ([unit_exp]
    0), wavenumber differences and epoch sums in [float64], [float32]
    angles. *)
Definition ex_dtypes : Float.Dtypes :=
  {| Float.unit_exp := 0; Float.wnum_arith := Float.binary64;
     Float.angle_dtype := Float.binary32; Float.time_sum_arith := Float.binary64 |}.
#[local] Existing Instance ex_dtypes.

(** A run in units of 1/2 with [float32] wavenumbers. *)
Definition ex_f32_halves : Float.Dtypes :=
  {| Float.unit_exp := -1; Float.wnum_arith := Float.binary32;
     Float.angle_dtype := Float.binary32; Float.time_sum_arith := Float.binary32 |}.

(** A run in units of [2^-56] with [float32] angles. *)
Definition ex_f32_angles : Float.Dtypes :=
  {| Float.unit_exp := -56; Float.wnum_arith := Float.binary64;
     Float.angle_dtype := Float.binary32; Float.time_sum_arith := Float.binary64 |}.

(** Three channels (6700.0, 6706.0, 6712.0), five observations at angles
    -20.0 .. 20.0. *)
Definition ex_shis : shis_file := {|
  sd_wavenumber := [6700; 6706; 6712];
  sd_FOVangle := [-20; -10; 0; 10; 20];
  sd_radiance := [[1; 2; 3]; [4; 5; 6]; [7; 8; 9]; [10; 11; 12]; [13; 14; 15]];
  sd_Longitude := [100; 101; 102; 103; 104];
  sd_Latitude := [40; 41; 42; 43; 44];
  sd_base_time := [1410000000 # 1];
  sd_time_offset := [0; 1; 2; 3; 4]%Q |}.

(** Center [center], half-range 15.0. *)
Definition ex_options (center : Z) : fov_options :=
  {| shis_input := Some Paths.shis_path; wnum_input := Some Paths.wnum_path;
     center_fov_angle := center; fov_angle_range := 15 |}.

(** A machine whose local time is UTC. *)
Definition utc (_ : Z) : Z := 0.

Definition empty_file : Nc.ncfile := {| Nc.nc_dims := []; Nc.nc_vars := [] |}.

Definition file_of (r : result unit * option Nc.ncfile) : Nc.ncfile :=
  match snd r with Some f => f | None => empty_file end.

Definition ex_run := create_fov_file utc (ex_options 0) ex_shis [6712; 6700] None.
Definition ex_empty_run := create_fov_file utc (ex_options 100) ex_shis [6712; 6700] None.


(** A machine with [HOME=/home/shis], no other user in the password
    database, whose working directory is [/data/shis/run]. *)
Module Env.
Import String Ascii.
Local Open Scope string_scope.
Definition HOME : String.string := "/home/shis".

(** [os.path.expanduser] there: [~] and [~/...] expand to [HOME], any
    other [~name] is left as it is (the [KeyError] branch). *)
Definition ex_expanduser (path : String.string) : String.string :=
  if prefix "~" path then
    match path with
    | String _ rest =>
        match rest with
        | EmptyString => HOME
        | String d _ => if Ascii.eqb d "/"%char then HOME ++ rest else path
        end
    | EmptyString => path
    end
  else path.

Definition ex_cwd : String.string := "/data/shis/run".
End Env.

End Examples.

(* ===================================================================== *)
(** * Proofs *)

(** ** Helper lemmas on lists *)

Lemma length_set_nth {A} n (v : A) xs : length (set_nth n v xs) = length xs.
Proof. revert n; induction xs; intros [|n]; simpl; auto. Qed.

Lemma nth_set_nth_eq {A} n (v d : A) xs :
  (n < length xs)%nat -> nth n (set_nth n v xs) d = v.
Proof.
  revert n; induction xs; intros [|n] H; simpl in *; try lia; auto.
  apply IHxs; lia.
Qed.

Lemma nth_set_nth_neq {A} n m (v d : A) xs :
  n <> m -> nth m (set_nth n v xs) d = nth m xs d.
Proof.
  revert n m; induction xs; intros [|n] [|m] H; simpl; auto; try congruence.
Qed.

Module FloatFacts.
Import Float.

Section Dt.
Context {dtypes : Dtypes}.

Lemma pow2_divide s t : 0 <= s <= t -> (2 ^ s | 2 ^ t).
Proof.
  intros Hst. exists (2 ^ (t - s)). rewrite <- Z.pow_add_r by lia. f_equal. lia.
Qed.

(** A value whose bits below [fl_exp] are zero is kept. *)
Lemma fl_exact f z : fl_exp f z <= 0 \/ (2 ^ fl_exp f z | z) -> fl f z = z.
Proof.
  unfold fl. set (s := fl_exp f z). intros Hz.
  destruct (Z.leb_spec s 0) as [Hs|Hs]; [reflexivity|].
  destruct Hz as [Hz|Hz]; [lia|].
  assert (Hp : 0 < 2 ^ s) by (apply Z.pow_pos_nonneg; lia).
  assert (Hh : 0 < 2 ^ (s - 1)) by (apply Z.pow_pos_nonneg; lia).
  assert (Hm : Z.abs z mod 2 ^ s = 0).
  { apply Z.mod_divide; [lia|]. apply Z.divide_abs_r. exact Hz. }
  pose proof (Z.div_mod (Z.abs z) (2 ^ s) ltac:(lia)) as Hd. rewrite Hm, Z.add_0_r in Hd.
  unfold round_shift. rewrite Hm.
  destruct (Z.ltb_spec 0 (2 ^ (s - 1))) as [_|Hc]; [|lia].
  rewrite (Z.mul_comm (Z.abs z / 2 ^ s)), <- Hd. rewrite Z.mul_comm. apply Z.abs_sgn.
Qed.

(** A rounded value is a multiple of [2 ^ fl_exp]. *)
Lemma fl_fixed f z : fl f z = z -> fl_exp f z <= 0 \/ (2 ^ fl_exp f z | z).
Proof.
  unfold fl. set (s := fl_exp f z).
  destruct (Z.leb_spec s 0) as [Hs|Hs]; [left; exact Hs|].
  intros E. right. rewrite <- E. apply Z.divide_mul_r.
  unfold round_shift. apply Z.divide_mul_r, Z.divide_refl.
Qed.

Lemma fl_exp_mono f a b : Z.abs a <= Z.abs b -> fl_exp f a <= fl_exp f b.
Proof.
  intros Hab. unfold fl_exp. pose proof (Z.log2_le_mono _ _ Hab). lia.
Qed.

(** Sterbenz: for [y <= x <= 2 y] the difference of two values of a format
    is a value of the format, so its subtraction is exact. *)
Lemma fl_sub_exact f x y :
  0 < y <= x -> x <= 2 * y -> fl f x = x -> fl f y = y -> fl f (x - y) = x - y.
Proof.
  intros Hy Hx Fx Fy. apply fl_exact.
  set (s := fl_exp f (x - y)).
  destruct (Z.leb_spec s 0) as [Hs|Hs]; [left; exact Hs|right].
  assert (Sx : s <= fl_exp f x) by (apply fl_exp_mono; lia).
  assert (Sy : s <= fl_exp f y) by (apply fl_exp_mono; lia).
  apply fl_fixed in Fx, Fy.
  destruct Fx as [Fx|Fx]; [lia|]. destruct Fy as [Fy|Fy]; [lia|].
  apply Z.divide_sub_r.
  - eapply Z.divide_trans; [apply pow2_divide; split; [lia|exact Sx]|exact Fx].
  - eapply Z.divide_trans; [apply pow2_divide; split; [lia|exact Sy]|exact Fy].
Qed.

End Dt.
End FloatFacts.

Module MatcherFacts.
Import Matcher MatcherSpec.

Section Dt.
Context {dtypes : Float.Dtypes}.

Section Scan.
Variables temp_wnums desired_wnums : list Z.

Local Abbreviation g i := (nth i temp_wnums 0).
Local Abbreviation chosen := (MatcherSpec.chosen temp_wnums).
Local Abbreviation scan_upto := (MatcherSpec.scan_upto temp_wnums desired_wnums).
Local Abbreviation scan_inv := (MatcherSpec.scan_inv temp_wnums desired_wnums).


Lemma match_step_cases f ct idx :
  match_step temp_wnums desired_wnums (f, ct) idx = (f, ct) \/
  ((ct < length f)%nat /\ exists v,
     match_step temp_wnums desired_wnums (f, ct) idx = (set_nth ct v f, S ct) /\
     chosen (nth ct desired_wnums 0) idx v).
Proof.
  unfold match_step, MatcherSpec.chosen.
  destruct (Nat.ltb_spec ct (length f)) as [Hlt|Hge]; [|now left].
  set (x := nth ct desired_wnums 0).
  destruct (Z.eqb_spec x (g idx)) as [E1|N1].
  { right; split; [exact Hlt|]. eexists; split; [reflexivity|]. left; auto. }
  destruct (Z.eqb_spec x (g (S idx))) as [E2|N2].
  { right; split; [exact Hlt|]. eexists; split; [reflexivity|]. right; left; auto. }
  destruct (Z.ltb_spec (g idx) x), (Z.ltb_spec x (g (S idx))); simpl;
    try (left; reflexivity).
  right; split; [exact Hlt|].
  destruct (Z.ltb_spec (Float.fl Float.wnum_arith (x - g idx))
                       (Float.fl Float.wnum_arith (g (S idx) - x)));
    (eexists; split; [reflexivity|]); right; right;
    (repeat split; auto);
    match goal with |- _ = (if ?c then _ else _) => destruct c eqn:E end;
    auto; lia.
Qed.


Lemma scan_upto_S n :
  scan_upto (S n) = match_step temp_wnums desired_wnums (scan_upto n) n.
Proof. unfold scan_upto. rewrite seq_S, fold_left_app. reflexivity. Qed.

Lemma match_scan_upto :
  match_scan temp_wnums desired_wnums = scan_upto (length temp_wnums - 1).
Proof. reflexivity. Qed.


Lemma chosen_range x idx v : chosen x idx v ->
  Z.of_nat idx <= v <= Z.of_nat (S idx).
Proof. unfold chosen; intros [[_ ->]|[[_ [_ ->]]|[_ [_ [_ ->]]]]]; try lia.
  destruct (_ <? _); lia. Qed.

Lemma scan_inv_holds n : scan_inv n (scan_upto n).
Proof.
  induction n as [|n IH].
  - unfold scan_upto; simpl. rewrite repeat_length.
    split; [reflexivity|]. split; [lia|]. split; [lia|].
    split; [|split; [|split]]; intros j Hj; try lia.
    rewrite (nth_indep _ _ (-1)) by (rewrite repeat_length; lia).
    apply nth_repeat.
  - rewrite scan_upto_S. destruct (scan_upto n) as [f ct] eqn:Hs.
    destruct IH as (Hlen & Hn & Hct & Hfree & Hch & Hrng & Hmono).
    destruct (match_step_cases f ct n) as [-> | (Hlt & v & -> & Hv)].
    + split; [exact Hlen|]. split; [lia|]. split; [lia|].
      split; [exact Hfree|]. split; [|split; [|exact Hmono]].
      * intros j Hj. destruct (Hch j Hj) as (idx & ? & ?). exists idx; split; auto.
      * intros j Hj; specialize (Hrng j Hj); lia.
    + pose proof (chosen_range _ _ _ Hv) as Hvr.
      unfold scan_inv; rewrite length_set_nth.
      split; [exact Hlen|]. split; [lia|]. split; [lia|].
      split; [|split; [|split]].
      * intros j Hj. rewrite nth_set_nth_neq by lia. apply Hfree; lia.
      * intros j Hj. destruct (Nat.eq_dec j ct) as [->|Hne].
        -- exists n; split; [lia|]. rewrite nth_set_nth_eq by lia. exact Hv.
        -- rewrite nth_set_nth_neq by lia.
           destruct (Hch j ltac:(lia)) as (idx & ? & ?). exists idx; split; auto.
      * intros j Hj. destruct (Nat.eq_dec j ct) as [->|Hne].
        -- rewrite nth_set_nth_eq by lia; lia.
        -- rewrite nth_set_nth_neq by lia. specialize (Hrng j ltac:(lia)); lia.
      * intros j Hj. destruct (Nat.eq_dec (S j) ct) as [E|Hne].
        -- rewrite nth_set_nth_neq by lia. rewrite <- E, nth_set_nth_eq by lia.
           specialize (Hrng j ltac:(lia)); lia.
        -- rewrite !nth_set_nth_neq by lia. apply Hmono; lia.
Qed.

Lemma scan_final :
  scan_inv (length temp_wnums - 1) (match_scan temp_wnums desired_wnums).
Proof. rewrite match_scan_upto. apply scan_inv_holds. Qed.

(** Strict ascent of the grid between any two indices. *)
Lemma ascending_lt i k :
  strictly_ascending temp_wnums -> (i < k < length temp_wnums)%nat -> g i < g k.
Proof.
  intros Hasc Hik. induction k as [|k IH]; [lia|].
  destruct (Nat.eq_dec i k) as [->|Hne].
  - apply Hasc; lia.
  - specialize (IH ltac:(lia)). pose proof (Hasc k ltac:(lia)). lia.
Qed.

Lemma ascending_le i k :
  strictly_ascending temp_wnums -> (i <= k < length temp_wnums)%nat -> g i <= g k.
Proof.
  intros Hasc Hik. destruct (Nat.eq_dec i k) as [->|]; [lia|].
  pose proof (ascending_lt i k Hasc ltac:(lia)); lia.
Qed.

(** A stored value lies between the two grid values of its step. *)
Lemma chosen_between x idx v :
  chosen x idx v -> x = g idx \/ x = g (S idx) \/ g idx < x < g (S idx).
Proof. unfold chosen; intros [[? _]|[[_ [? _]]|[_ [_ [? _]]]]]; auto. Qed.

End Scan.

(** The entries at or after the target cursor still hold the sentinel, so a
    scan with no sentinel left has matched every desired value. *)
Lemma np_min_le xs m x : Np.np_min xs = Ok m -> In x xs -> m <= x.
Proof.
  destruct xs as [|y ys]; simpl; [discriminate|]. intros H; injection H as <-.
  assert (Hgen : forall a, (Np.min_from a ys <= a /\ forall z, In z ys -> Np.min_from a ys <= z)).
  { induction ys as [|z zs IH]; simpl; intros a; [split; [lia| tauto]|].
    destruct (IH (Z.min a z)) as [H1 H2]. split; [lia|].
    intros w [<-|Hw]; [lia|]. auto. }
  destruct (Hgen y) as [H1 H2]. intros [<-|Hx]; auto.
Qed.

Lemma success_all_matched g d m :
  Np.np_min (found_indexes g d) = Ok m -> 0 <= m ->
  snd (match_scan g d) = length d.
Proof.
  intros Hmin Hm. pose proof (scan_final g d) as Hinv.
  unfold found_indexes in Hmin. destruct (match_scan g d) as [f ct]; simpl in *.
  destruct Hinv as (Hlen & _ & Hct & Hfree & _).
  destruct (Nat.eq_dec ct (length f)) as [E|Hne]; [lia|].
  assert (Hin : In (nth ct f 0) f) by (apply nth_In; lia).
  rewrite Hfree in Hin by lia. pose proof (np_min_le _ _ _ Hmin Hin); lia.
Qed.


(** A desired value outside the grid range blocks the target cursor. *)
Lemma cursor_blocked g d j :
  strictly_ascending g -> (j < length d)%nat ->
  nth j d 0 < nth 0 g 0 \/ nth (length g - 1) g 0 < nth j d 0 ->
  forall n, (n <= length g - 1)%nat -> (snd (scan_upto g d n) <= j)%nat.
Proof.
  intros Hasc Hj Hout n. induction n as [|n IH]; intros Hn; [simpl; lia|].
  rewrite scan_upto_S. pose proof (scan_inv_holds g d n) as Hinv.
  destruct (scan_upto g d n) as [f ct]; simpl in IH.
  specialize (IH ltac:(lia)).
  destruct (match_step_cases g d f ct n) as [-> | (Hlt & v & -> & Hv)]; simpl; [lia|].
  destruct (Nat.eq_dec ct j) as [->|]; [exfalso|lia].
  pose proof (chosen_between _ _ _ _ Hv) as Hb.
  pose proof (ascending_le g 0 n Hasc ltac:(lia)).
  pose proof (ascending_le g (S n) (length g - 1) Hasc ltac:(lia)).
  pose proof (ascending_lt g n (S n) Hasc ltac:(lia)).
  simpl in *. lia.
Qed.

(** Each grid index matches at most one desired value, and the loop visits
    [M - 1] grid indexes: at most [M - 1] desired values get matched. *)
Lemma matched_count_bound g d :
  (snd (match_scan g d) <= length g - 1)%nat.
Proof.
  pose proof (scan_final g d) as Hinv. destruct (match_scan g d) as [f ct].
  simpl in *. tauto.
Qed.

Lemma unmatched_from_cursor g d j :
  (snd (match_scan g d) <= j < length d)%nat -> nth j (found_indexes g d) 0 = -1.
Proof.
  pose proof (scan_final g d) as Hinv. unfold found_indexes.
  destruct (match_scan g d) as [f ct]. simpl in *.
  destruct Hinv as (Hlen & _ & _ & Hfree & _). intros Hj. apply Hfree; lia.
Qed.

End Dt.
End MatcherFacts.



Lemma fancy_index_in_range {A} (xs : list A) (d : A) idxs :
  Forall (fun i => 0 <= i < Z.of_nat (length xs)) idxs ->
  Np.fancy_index xs idxs = Ok (map (fun i => nth (Z.to_nat i) xs d) idxs).
Proof.
  induction 1 as [|i is Hi His IH]; simpl; [reflexivity|].
  rewrite IH. unfold Np.np_get.
  replace ((0 <=? i) && (i <? Z.of_nat (length xs))) with true
    by (symmetry; apply andb_true_iff; split; [apply Z.leb_le|apply Z.ltb_lt]; lia).
  rewrite nth_error_nth' with (d := d) by lia. reflexivity.
Qed.

Module MatcherClaims.
Import Matcher MatcherFacts.

Section Dt.
Context {dtypes : Float.Dtypes}.

(** Claim C8.  When the scan succeeds (the [numpy.min] of the found indexes
    is non-negative) the found indexes are non-decreasing: entry [j] is at
    most entry [j+1].  This holds for any grid and desired list; no
    ordering of the inputs is needed. *)
Theorem found_indexes_monotone (temp_wnums desired_wnums : list Z) (m : Z) :
  Np.np_min (found_indexes temp_wnums desired_wnums) = Ok m -> 0 <= m ->
  forall j, (S j < length (found_indexes temp_wnums desired_wnums))%nat ->
  nth j (found_indexes temp_wnums desired_wnums) 0 <=
  nth (S j) (found_indexes temp_wnums desired_wnums) 0.
Proof.
  intros Hmin Hm j Hj.
  pose proof (success_all_matched _ _ _ Hmin Hm) as Hall.
  pose proof (scan_final temp_wnums desired_wnums) as Hinv.
  unfold found_indexes in *. destruct (match_scan temp_wnums desired_wnums) as [f ct].
  simpl in *. destruct Hinv as (Hlen & _ & _ & _ & _ & _ & Hmono).
  apply Hmono; lia.
Qed.

(** Claim C10.  When the scan succeeds every found index lies in
    [[0, M-1]] for a grid of length [M], so indexing the grid, or any
    radiance row of length [M], by the found indexes is in bounds. *)
Theorem found_indexes_in_bounds (temp_wnums desired_wnums : list Z) (m : Z) :
  Np.np_min (found_indexes temp_wnums desired_wnums) = Ok m -> 0 <= m ->
  (forall j, (j < length (found_indexes temp_wnums desired_wnums))%nat ->
     0 <= nth j (found_indexes temp_wnums desired_wnums) 0 <=
     Z.of_nat (length temp_wnums) - 1) /\
  (forall row : list Z, length row = length temp_wnums ->
     Np.fancy_index row (found_indexes temp_wnums desired_wnums) =
     Ok (map (fun i => nth (Z.to_nat i) row 0) (found_indexes temp_wnums desired_wnums))).
Proof.
  intros Hmin Hm.
  pose proof (success_all_matched _ _ _ Hmin Hm) as Hall.
  pose proof (scan_final temp_wnums desired_wnums) as Hinv.
  assert (Hb : forall j, (j < length (found_indexes temp_wnums desired_wnums))%nat ->
     0 <= nth j (found_indexes temp_wnums desired_wnums) 0 <=
     Z.of_nat (length temp_wnums) - 1).
  { unfold found_indexes in *. destruct (match_scan temp_wnums desired_wnums) as [f ct].
    simpl in *. destruct Hinv as (Hlen & Hn & _ & _ & _ & Hrng & _).
    intros j Hj. specialize (Hrng j ltac:(lia)). lia. }
  split; [exact Hb|].
  intros row Hrow. apply fancy_index_in_range.
  apply Forall_forall. intros i Hi.
  destruct (In_nth _ _ 0 Hi) as (j & Hj & <-). specialize (Hb j Hj). lia.
Qed.

(** Claim C3, as the code has it.  For a strictly ascending grid, a
    matched desired value [d] strictly between [grid[i]] and [grid[i+1]] is
    matched to [i] when the difference [d - grid[i]], computed in
    [wnum_arith], is strictly smaller than the computed
    [grid[i+1] - d], and to [i+1] otherwise.  When [0 < grid[i]] and
    [grid[i+1] <= 2 * grid[i]] (and the values are values of the format)
    both subtractions are exact: [d] is matched to the nearer of the two,
    and on an exact midpoint the test [<] fails and the upper index [i+1]
    is chosen. *)
Theorem matched_between_neighbours (temp_wnums desired_wnums : list Z) (i j : nat) :
  strictly_ascending temp_wnums ->
  (S i < length temp_wnums)%nat -> (j < length desired_wnums)%nat ->
  nth j (found_indexes temp_wnums desired_wnums) 0 <> -1 ->
  nth i temp_wnums 0 < nth j desired_wnums 0 < nth (S i) temp_wnums 0 ->
  nth j (found_indexes temp_wnums desired_wnums) 0 =
  (if Float.fl Float.wnum_arith (nth j desired_wnums 0 - nth i temp_wnums 0) <?
      Float.fl Float.wnum_arith (nth (S i) temp_wnums 0 - nth j desired_wnums 0)
   then Z.of_nat i else Z.of_nat (S i)) /\
  (0 < nth i temp_wnums 0 -> nth (S i) temp_wnums 0 <= 2 * nth i temp_wnums 0 ->
   Float.fl Float.wnum_arith (nth i temp_wnums 0) = nth i temp_wnums 0 ->
   Float.fl Float.wnum_arith (nth (S i) temp_wnums 0) = nth (S i) temp_wnums 0 ->
   Float.fl Float.wnum_arith (nth j desired_wnums 0) = nth j desired_wnums 0 ->
   nth j (found_indexes temp_wnums desired_wnums) 0 =
   (if nth j desired_wnums 0 - nth i temp_wnums 0 <? nth (S i) temp_wnums 0 - nth j desired_wnums 0
    then Z.of_nat i else Z.of_nat (S i))).
Proof.
  intros Hasc Hi Hj Hmatched Hbetw.
  assert (Hv : nth j (found_indexes temp_wnums desired_wnums) 0 =
    (if Float.fl Float.wnum_arith (nth j desired_wnums 0 - nth i temp_wnums 0) <?
        Float.fl Float.wnum_arith (nth (S i) temp_wnums 0 - nth j desired_wnums 0)
     then Z.of_nat i else Z.of_nat (S i))).
  { pose proof (scan_final temp_wnums desired_wnums) as Hinv.
    unfold found_indexes in *. destruct (match_scan temp_wnums desired_wnums) as [f ct].
    simpl in *. destruct Hinv as (Hlen & Hn & Hct & Hfree & Hch & _).
    destruct (Nat.lt_ge_cases j ct) as [Hjct|Hjct];
      [|exfalso; apply Hmatched, Hfree; lia].
    destruct (Hch j Hjct) as (idx & Hidx & Hc).
    set (x := nth j desired_wnums 0) in *.
    assert (idx = i) as ->.
    { pose proof (chosen_between _ _ _ _ Hc) as Hb.
      destruct (Nat.lt_total idx i) as [Hlt|[Heq|Hgt]]; [exfalso| exact Heq | exfalso].
      - pose proof (ascending_le _ (S idx) i Hasc ltac:(lia)).
        pose proof (ascending_lt _ idx (S idx) Hasc ltac:(lia)). simpl in *. lia.
      - pose proof (ascending_le _ (S i) idx Hasc ltac:(lia)).
        pose proof (ascending_lt _ idx (S idx) Hasc ltac:(lia)). simpl in *. lia. }
    unfold MatcherSpec.chosen in Hc. simpl in Hc. lia. }
  split; [exact Hv|].
  intros Hpos Hratio Fi Fi1 Fd. rewrite Hv.
  rewrite (FloatFacts.fl_sub_exact _ (nth j desired_wnums 0) (nth i temp_wnums 0))
    by (try assumption; lia).
  rewrite (FloatFacts.fl_sub_exact _ (nth (S i) temp_wnums 0) (nth j desired_wnums 0))
    by (try assumption; lia).
  reflexivity.
Qed.

End Dt.
End MatcherClaims.

(** ** The conversion run *)
Module ConversionFacts.
Import Np Nc Guidebook Conversion.

Ltac unfold_run :=
  unfold create_fov_file, Nc.bind, Nc.lift, Nc.ret, Nc.create,
    Nc.create_dimension, Nc.write_var.

Ltac unfold_run_in H :=
  unfold create_fov_file, Nc.bind, Nc.lift, Nc.ret, Nc.create,
    Nc.create_dimension, Nc.write_var in H.

Ltac destruct_results H :=
  repeat (match type of H with
          | context [match ?r with Ok _ => _ | Err _ => _ end] =>
              let E := fresh "E" in destruct r eqn:E; cbv iota in H; try discriminate H
          end).

(** The run, taken apart at each call that can raise. *)
Ltac run_cases H :=
  unfold_run_in H;
  match type of H with context [shis_input ?o] =>
    destruct (shis_input o), (wnum_input o); try discriminate H end;
  cbv beta iota zeta in H;
  destruct_results H;
  try (match type of H with context [if ?c then _ else _] =>
         let Hc := fresh "Hneg" in destruct c eqn:Hc end);
  cbv beta iota in H; try discriminate H.

Section Dt.
Context {dtypes : Float.Dtypes}.

Lemma insert_sorted_in x y l : In y (insert_sorted x l) <-> x = y \/ In y l.
Proof.
  induction l as [|z l IH]; simpl; [tauto|].
  destruct (x <=? z); simpl; [tauto|]. rewrite IH; tauto.
Qed.

Lemma np_sort_in x l : In x (np_sort l) <-> In x l.
Proof.
  induction l as [|y l IH]; simpl; [tauto|]. rewrite insert_sorted_in, IH; tauto.
Qed.

Lemma np_min_ok_of_in xs x : In x xs -> exists m, np_min xs = Ok m /\ m <= x.
Proof.
  destruct xs as [|y ys]; [intros []|]. intros Hx.
  exists (min_from y ys). split; [reflexivity|].
  apply (MatcherFacts.np_min_le (y :: ys)); auto.
Qed.

Lemma found_indexes_length g d : length (Matcher.found_indexes g d) = length d.
Proof.
  pose proof (MatcherFacts.scan_final g d) as Hinv. unfold Matcher.found_indexes.
  destruct (Matcher.match_scan g d) as [f ct]. simpl in *. tauto.
Qed.

Lemma filter_map_S (f : nat -> bool) l :
  filter f (map S l) = map S (filter (fun i => f (S i)) l).
Proof. induction l as [|x l IH]; simpl; [reflexivity|]. destruct (f (S x)); simpl; now rewrite IH. Qed.

Lemma true_positions_cons b m :
  Subset.true_positions (b :: m) =
  (if b then [O] else []) ++ map S (Subset.true_positions m).
Proof.
  unfold Subset.true_positions. simpl. rewrite <- seq_shift, filter_map_S.
  destruct b; reflexivity.
Qed.

Lemma mask_select_positions {A} (xs : list A) (d : A) mask :
  length xs = length mask ->
  mask_select xs mask = map (fun k => nth k xs d) (Subset.true_positions mask).
Proof.
  revert mask; induction xs as [|x xs IH]; intros [|b m] Hl; simpl in Hl; try discriminate.
  - reflexivity.
  - rewrite true_positions_cons, map_app, map_map. simpl.
    rewrite (IH m) by lia. destruct b; reflexivity.
Qed.

Lemma count_true_positions mask : count_true mask = length (Subset.true_positions mask).
Proof.
  induction mask as [|b m IH]; [reflexivity|].
  rewrite true_positions_cons, length_app, length_map. simpl. rewrite IH. destruct b; reflexivity.
Qed.

Lemma length_mask_select {A} (xs : list A) mask :
  length xs = length mask -> length (mask_select xs mask) = count_true mask.
Proof.
  revert mask; induction xs as [|x xs IH]; intros [|b m] Hl; simpl in *; try lia.
  destruct b; simpl; rewrite IH; lia.
Qed.

Lemma bool_index_ok {A} (xs : list A) mask r :
  bool_index xs mask = Ok r -> r = mask_select xs mask /\ length xs = length mask.
Proof.
  unfold bool_index. destruct (Nat.eqb_spec (length xs) (length mask)); intros H;
    [injection H as <-; auto | discriminate].
Qed.

Lemma collect_obs_radiances_ok rows pre m acc :
  length rows = length m ->
  collect_obs_radiances rows (pre ++ m) (length pre) acc =
  Ok (fold_left np_append_row (mask_select rows m) acc).
Proof.
  revert pre m acc; induction rows as [|row rows IH]; intros pre [|b m] acc Hl;
    simpl in Hl; try discriminate; [reflexivity|].
  simpl. rewrite nth_error_app2, Nat.sub_diag by lia. simpl.
  replace (S (length pre)) with (length (pre ++ [b])) by (rewrite length_app; simpl; lia).
  replace (pre ++ b :: m) with ((pre ++ [b]) ++ m) by (rewrite <- app_assoc; reflexivity).
  destruct b; rewrite IH by lia; reflexivity.
Qed.

Lemma fold_append_some a rows :
  fold_left np_append_row rows (Some a) = Some (a ++ concat rows).
Proof.
  revert a; induction rows as [|r rows IH]; intros a; simpl.
  - now rewrite app_nil_r.
  - rewrite IH, app_assoc. reflexivity.
Qed.

Lemma fold_append_none rows :
  fold_left np_append_row rows None =
  match rows with [] => None | _ => Some (concat rows) end.
Proof. destruct rows as [|r rows]; simpl; [reflexivity|]. apply fold_append_some. Qed.

Lemma chunk_concat rows c :
  Forall (fun r => length r = c) rows -> chunk (length rows) c (concat rows) = rows.
Proof.
  induction 1 as [|r rows Hr Hrows IH]; simpl; [reflexivity|].
  rewrite firstn_app, skipn_app, Hr, Nat.sub_diag, firstn_all2, skipn_all2 by lia.
  simpl. rewrite app_nil_r, IH. reflexivity.
Qed.

(** From a successful reshape of the accumulated rows back to the rows. *)
Lemma reshape_rows rows c r :
  (1 <= c)%nat -> Forall (fun row => length row = c) rows ->
  np_reshape (fold_left np_append_row rows None) (length rows) c = Ok r -> r = rows.
Proof.
  intros Hc Hrows. rewrite fold_append_none. unfold np_reshape.
  destruct rows as [|row rows']; simpl.
  - destruct (Nat.eqb_spec 1 0); discriminate.
  - destruct (Nat.eqb _ _); [|discriminate]. intros H; injection H as <-.
    apply (chunk_concat (row :: rows')); auto.
Qed.

Lemma np_get_nat {A} (xs : list A) (d : A) k :
  (k < length xs)%nat -> np_get xs (Z.of_nat k) = Ok (nth k xs d).
Proof.
  intros Hk. unfold np_get.
  replace ((0 <=? Z.of_nat k) && (Z.of_nat k <? Z.of_nat (length xs))) with true
    by (symmetry; apply andb_true_iff; split; [apply Z.leb_le|apply Z.ltb_lt]; lia).
  rewrite Nat2Z.id. rewrite nth_error_nth' with (d := d) by lia. reflexivity.
Qed.

Lemma collect_selected_ok all found obs acc :
  (forall k, In k obs -> (k < length all)%nat) ->
  (forall k, In k obs -> fancy_index (nth k all []) found =
                         Ok (Subset.select_columns found (nth k all []))) ->
  collect_selected all found obs acc =
  Ok (fold_left np_append_row
        (map (fun k => Subset.select_columns found (nth k all [])) obs) acc).
Proof.
  revert acc; induction obs as [|k obs IH]; intros acc Hk Hsel; simpl; [reflexivity|].
  rewrite (np_get_nat all []) by (apply Hk; left; reflexivity).
  rewrite Hsel by (left; reflexivity).
  apply IH; intros; [apply Hk|apply Hsel]; right; assumption.
Qed.

Lemma map_nth_seq_all {A B} (f : A -> B) (xs : list A) (d : A) :
  map (fun k => f (nth k xs d)) (seq 0 (length xs)) = map f xs.
Proof.
  induction xs as [|x xs IH]; [reflexivity|].
  simpl. rewrite <- seq_shift, map_map. f_equal. exact IH.
Qed.


(** When some desired wavenumber is left at the sentinel, the run returns
    before [nc.Dataset(..., 'w')]: the output state is left as it was. *)
Lemma run_sentinel_returns tz options shis wn s0 :
  In (-1) (Matcher.found_indexes (sd_wavenumber shis) (np_sort wn)) ->
  create_fov_file tz options shis wn s0 = (Ok tt, s0).
Proof.
  intros Hin. destruct (np_min_ok_of_in _ _ Hin) as (m & Hm & Hle).
  unfold_run. destruct (shis_input options), (wnum_input options); try reflexivity.
  cbv zeta. rewrite Hm. replace (m <? 0) with true by (symmetry; apply Z.ltb_lt; lia).
  reflexivity.
Qed.



Lemma count_true_filter mask : count_true mask = length (filter (fun b => b) mask).
Proof. induction mask as [|b m IH]; [reflexivity|]. destruct b; simpl; rewrite IH; reflexivity. Qed.

Lemma mask_select_all_false {A} (xs : list A) mask :
  forallb negb mask = true -> mask_select xs mask = [].
Proof.
  revert mask; induction xs as [|x xs IH]; intros [|b m] Hm; simpl in *; auto.
  apply andb_true_iff in Hm as [Hb Hm]. destruct b; [discriminate|]. auto.
Qed.

Lemma count_true_all_false mask : forallb negb mask = true -> count_true mask = O.
Proof.
  induction mask as [|b m IH]; simpl; intros Hm; [reflexivity|].
  apply andb_true_iff in Hm as [Hb Hm]. destruct b; [discriminate|]. auto.
Qed.

Lemma bool_index_all_false {A} (xs : list A) mask :
  length xs = length mask -> forallb negb mask = true -> bool_index xs mask = Ok [].
Proof.
  intros Hl Hm. unfold bool_index. rewrite Hl, Nat.eqb_refl, mask_select_all_false; auto.
Qed.

Lemma angle_mask_nth angles c r k :
  (k < length angles)%nat ->
  nth k (Geometry.angle_mask angles c r) false =
  (Float.fl Float.angle_dtype (Float.fl Float.binary64 (c - r)) <=? nth k angles 0) &&
  (nth k angles 0 <=? Float.fl Float.angle_dtype (Float.fl Float.binary64 (c + r))).
Proof.
  intros Hk. unfold Geometry.angle_mask. cbv zeta.
  set (lo := Float.fl Float.angle_dtype (Float.fl Float.binary64 (c - r))).
  set (hi := Float.fl Float.angle_dtype (Float.fl Float.binary64 (c + r))).
  rewrite (nth_indep _ false ((fun a => (lo <=? a) && (a <=? hi)) 0))
    by (rewrite length_map; lia).
  exact (map_nth (fun a => (lo <=? a) && (a <=? hi)) angles 0 k).
Qed.


Lemma np_get_zero {A} (xs : list A) (d a : A) : np_get xs 0 = Ok a -> a = nth 0 xs d.
Proof. destruct xs as [|x xs]; simpl; [discriminate|]. intros H; injection H as <-; reflexivity. Qed.

Lemma forall_mask_select {A} (P : A -> Prop) xs mask :
  Forall P xs -> Forall P (mask_select xs mask).
Proof.
  intros HP; revert mask; induction HP as [|x xs Hx Hxs IH]; intros [|b m]; simpl; auto.
  destruct b; auto.
Qed.

(** A successful scan has at least one desired value, hence at least two
    grid values. *)
Lemma success_grid_length g d m :
  np_min (Matcher.found_indexes g d) = Ok m -> 0 <= m ->
  (1 <= length d)%nat /\ (2 <= length g)%nat.
Proof.
  intros Hmin Hm. pose proof (MatcherFacts.success_all_matched _ _ _ Hmin Hm) as Hall.
  pose proof (MatcherFacts.matched_count_bound g d) as Hb.
  assert (Hne : (1 <= length d)%nat).
  { rewrite <- (found_indexes_length g d).
    destruct (Matcher.found_indexes g d); simpl in *; [discriminate|lia]. }
  lia.
Qed.

(** After a successful scan, every found index selects a column of a row
    as long as the grid. *)
Lemma found_indexes_select g d m row :
  np_min (Matcher.found_indexes g d) = Ok m -> 0 <= m -> length row = length g ->
  fancy_index row (Matcher.found_indexes g d) =
  Ok (Subset.select_columns (Matcher.found_indexes g d) row).
Proof.
  intros Hmin Hm Hrow.
  pose proof (MatcherFacts.success_all_matched _ _ _ Hmin Hm) as Hall.
  pose proof (MatcherFacts.scan_final g d) as Hinv.
  apply fancy_index_in_range, Forall_forall. intros i Hi.
  destruct (In_nth _ _ 0 Hi) as (j & Hj & <-).
  unfold Matcher.found_indexes in *. destruct (Matcher.match_scan g d) as [f ct].
  simpl in *. destruct Hinv as (Hlen & Hn & _ & _ & _ & Hrng & _).
  specialize (Hrng j ltac:(lia)). lia.
Qed.

End Dt.
End ConversionFacts.

Module Claims.
Import Np Nc Guidebook Conversion MatcherFacts ConversionFacts.

Section Dt.
Context {dtypes : Float.Dtypes}.

(** Claim C4.  When an entry of [found_indexes] still holds the sentinel
    [-1] after the scan, [create_fov_file] logs the failure and returns
    before [nc.Dataset(..., 'w')]: no output file is created or truncated,
    the output state is the one before the run. *)
Theorem unmatched_channel_aborts tz options shis wn s0 :
  In (-1) (Matcher.found_indexes (sd_wavenumber shis) (np_sort wn)) ->
  create_fov_file tz options shis wn s0 = (Ok tt, s0).
Proof. apply run_sentinel_returns. Qed.

(** Claim C9.  For a strictly ascending grid, a desired wavenumber below
    the first or above the last grid value is never matched: its entry and
    every later entry (in the sorted desired order) keep the sentinel, and
    the run returns without writing the output file. *)
Theorem out_of_range_never_matched tz options shis wn s0 x :
  Matcher.strictly_ascending (sd_wavenumber shis) -> In x wn ->
  x < nth 0 (sd_wavenumber shis) 0 \/
  nth (length (sd_wavenumber shis) - 1) (sd_wavenumber shis) 0 < x ->
  (forall j j', (j <= j' < length (np_sort wn))%nat -> nth j (np_sort wn) 0 = x ->
     nth j' (Matcher.found_indexes (sd_wavenumber shis) (np_sort wn)) 0 = -1) /\
  create_fov_file tz options shis wn s0 = (Ok tt, s0).
Proof.
  intros Hasc Hin Hout.
  set (g := sd_wavenumber shis) in *. set (d := np_sort wn).
  assert (Hstay : forall j j', (j <= j' < length d)%nat -> nth j d 0 = x ->
     nth j' (Matcher.found_indexes g d) 0 = -1).
  { intros j j' Hj Hx. apply unmatched_from_cursor. split; [|lia].
    rewrite match_scan_upto.
    pose proof (cursor_blocked g d j Hasc ltac:(lia) ltac:(rewrite Hx; exact Hout)
                  (length g - 1) (le_n _)). lia. }
  split; [exact Hstay|].
  apply run_sentinel_returns.
  assert (Hd : In x d) by (apply np_sort_in; exact Hin).
  destruct (In_nth _ _ 0 Hd) as (j & Hj & Hx).
  rewrite <- (Hstay j j ltac:(lia) Hx). apply nth_In.
  rewrite found_indexes_length. exact Hj.
Qed.

(** Claim C2 (the matcher half).  Matching a list against itself never
    gives the identity: the loop visits grid indexes [0 .. M-2] and matches
    at most one desired value per index, so the last desired value keeps
    the sentinel. *)
Theorem self_match_leaves_last_unmatched (W : list Z) :
  (1 <= length W)%nat ->
  nth (length W - 1) (Matcher.found_indexes W W) 0 = -1.
Proof.
  intros HW. apply unmatched_from_cursor.
  pose proof (matched_count_bound W W). lia.
Qed.

(** Claim C1.  A run that writes [fov.nc] (none existed before) keeps the
    row correspondence: row [k] of longitude, latitude, FOV angle, time
    offset, calendar time and full radiance comes from the [k]-th original
    row where the angle mask is true, in original order; and column [j] of
    a selected-radiance row is column [channel_index_map[j]] of the same
    full-radiance row.  The input is an observation set: one radiance row of
    the grid's length per FOV angle.  The calendar time of row [k] is that
    of the epoch sum [time_offset[k] + base_time[0]] as the code computes
    it, in [time_sum_arith]. *)
Theorem subset_row_correspondence tz options shis wn f :
  let mask := Geometry.angle_mask (sd_FOVangle shis) (center_fov_angle options)
                (fov_angle_range options) in
  let rows := Subset.true_positions mask in
  let channel_index_map := Matcher.found_indexes (sd_wavenumber shis) (np_sort wn) in
  length (sd_radiance shis) = length (sd_FOVangle shis) ->
  Forall (fun row => length row = length (sd_wavenumber shis)) (sd_radiance shis) ->
  create_fov_file tz options shis wn None = (Ok tt, Some f) ->
  var f OUT_FOV_LON_VAR_NAME = Some (NcZ (map (fun k => nth k (sd_Longitude shis) 0) rows)) /\
  var f OUT_FOV_LAT_VAR_NAME = Some (NcZ (map (fun k => nth k (sd_Latitude shis) 0) rows)) /\
  var f OUT_FOV_FOV_ANGLE_VAR_NAME = Some (NcZ (map (fun k => nth k (sd_FOVangle shis) 0) rows)) /\
  var f OUT_FOV_TIME_OFFSET_VAR_NAME =
    Some (NcQ (map (fun k => nth k (sd_time_offset shis) 0%Q) rows)) /\
  var f OUT_FOV_MATLAB_DATENUM_TIME_VAR_NAME =
    Some (NcQ (map (fun k => matlab_time tz
                       (Time.float_round Float.time_sum_arith
                          (nth k (sd_time_offset shis) 0 + nth 0 (sd_base_time shis) 0)%Q))
                 rows)) /\
  var f OUT_FOV_RADIANCE_VAR_NAME =
    Some (NcZZ (map (fun k => nth k (sd_radiance shis) []) rows)) /\
  var f OUT_FOV_SELECTED_RADIANCE_VAR_NAME =
    Some (NcZZ (map (fun k => Subset.select_columns channel_index_map
                                (nth k (sd_radiance shis) [])) rows)).
Proof.
  intros mask rows cim Hnrows Hrowlen H. subst mask rows cim.
  run_cases H.
  injection H as Hf. subst f.
  set (mask := Geometry.angle_mask (sd_FOVangle shis) (center_fov_angle options)
                 (fov_angle_range options)) in *.
  set (cim := Matcher.found_indexes (sd_wavenumber shis) (np_sort wn)) in *.
  assert (Hm0 : 0 <= a) by (apply Z.ltb_ge; exact Hneg).
  destruct (success_grid_length _ _ _ E Hm0) as [HK HM].
  apply bool_index_ok in E0 as [-> L0].
  apply bool_index_ok in E1 as [-> L1].
  apply bool_index_ok in E3 as [-> L3].
  apply bool_index_ok in E4 as [-> L4].
  apply (np_get_zero _ 0%Q) in E2. subst a2.
  (* the full radiance rows *)
  assert (Hlm : length (sd_radiance shis) = length mask)
    by (unfold mask, Geometry.angle_mask; rewrite length_map; exact Hnrows).
  pose proof (collect_obs_radiances_ok (sd_radiance shis) [] mask None Hlm) as C5.
  simpl app in C5. simpl length in C5. rewrite C5 in E5. injection E5 as <-.
  set (L := mask_select (sd_radiance shis) mask) in *.
  assert (HL : Forall (fun row => length row = length (sd_wavenumber shis)) L)
    by (apply forall_mask_select; exact Hrowlen).
  rewrite <- (length_mask_select _ _ Hlm) in E6, E8, E9. fold L in E6, E8, E9.
  apply reshape_rows in E6; [|lia|exact HL]. subst a6.
  (* the selected radiance rows *)
  rewrite collect_selected_ok in E8.
  2:{ intros k Hk. apply in_seq in Hk. lia. }
  2:{ intros k Hk. apply in_seq in Hk. apply (found_indexes_select _ _ _ _ E Hm0).
      rewrite Forall_forall in HL. apply HL, nth_In. lia. }
  injection E8 as <-.
  rewrite (map_nth_seq_all (Subset.select_columns cim) L []) in E9.
  rewrite <- (length_map (Subset.select_columns cim) L) in E9.
  apply reshape_rows in E9.
  2:{ unfold cim. rewrite found_indexes_length. lia. }
  2:{ apply Forall_forall. intros r Hr. apply in_map_iff in Hr as (row & <- & _).
      unfold Subset.select_columns. rewrite length_map. reflexivity. }
  subst a9.
  unfold var, OUT_FOV_LON_VAR_NAME, OUT_FOV_LAT_VAR_NAME, OUT_FOV_FOV_ANGLE_VAR_NAME,
    OUT_FOV_TIME_OFFSET_VAR_NAME, OUT_FOV_MATLAB_DATENUM_TIME_VAR_NAME,
    OUT_FOV_RADIANCE_VAR_NAME, OUT_FOV_SELECTED_RADIANCE_VAR_NAME,
    OUT_FOV_BASE_TIME_VAR_NAME, OUT_FOV_WAVE_NUMBER_VAR_NAME,
    OUT_FOV_SELECTED_WAVE_NUMBER_VAR_NAME, OUT_FOV_SELECTED_CHANNEL_IDX_VAR_NAME.
  simpl.
  unfold L.
  rewrite !(mask_select_positions _ 0) by lia.
  rewrite !(mask_select_positions _ 0%Q) by lia.
  rewrite !(mask_select_positions _ []) by lia.
  rewrite !map_map.
  repeat split; reflexivity.
Qed.

(** Claim C6, as the code has it.  The geometry filter gives one flag per
    observation, true exactly when [lo <= angle <= hi] (both bounds
    inclusive), where [lo] and [hi] are [c - r] and [c + r] computed in
    [float64] and converted to the type of the angle array; once the run
    has created [fov.nc] its observation dimension is the number of true
    flags. *)
Theorem angle_mask_and_obs_dimension tz options shis wn res f :
  let c := center_fov_angle options in
  let r := fov_angle_range options in
  let mask := Geometry.angle_mask (sd_FOVangle shis) c r in
  length mask = length (sd_FOVangle shis) /\
  (forall k, (k < length (sd_FOVangle shis))%nat ->
     (nth k mask false = true <->
      Float.fl Float.angle_dtype (Float.fl Float.binary64 (c - r)) <= nth k (sd_FOVangle shis) 0 /\
      nth k (sd_FOVangle shis) 0 <= Float.fl Float.angle_dtype (Float.fl Float.binary64 (c + r)))) /\
  (create_fov_file tz options shis wn None = (res, Some f) ->
   dim f OUT_FOV_OBS_NUM_DIM_NAME = Some (length (filter (fun b => b) mask))).
Proof.
  intros c r mask. split; [|split].
  - unfold mask, Geometry.angle_mask. apply length_map.
  - intros k Hk. unfold mask.
    rewrite angle_mask_nth by exact Hk.
    rewrite andb_true_iff, Z.leb_le, Z.leb_le. reflexivity.
  - intros H. subst c r mask. rewrite <- count_true_filter.
    run_cases H; injection H as _ <-; reflexivity.
Qed.

(** Claim C5, as the code behaves.  When the matcher succeeds and the
    geometry filter selects no observation, the run does not write an empty
    product: [fov.nc] has been created with an [obsnum] dimension of size 0,
    then [numpy.reshape(None, (0, num_channels))] raises [ValueError] before
    the [Radiance] variable is written. *)
Theorem empty_selection_raises tz options shis wn s0 p1 p2 m :
  let mask := Geometry.angle_mask (sd_FOVangle shis) (center_fov_angle options)
                (fov_angle_range options) in
  shis_input options = Some p1 -> wnum_input options = Some p2 ->
  np_min (Matcher.found_indexes (sd_wavenumber shis) (np_sort wn)) = Ok m -> 0 <= m ->
  forallb negb mask = true ->
  length (sd_Longitude shis) = length (sd_FOVangle shis) ->
  length (sd_Latitude shis) = length (sd_FOVangle shis) ->
  length (sd_time_offset shis) = length (sd_FOVangle shis) ->
  length (sd_radiance shis) = length (sd_FOVangle shis) ->
  sd_base_time shis <> [] ->
  exists f, create_fov_file tz options shis wn s0 = (Err ValueError, Some f) /\
            dim f OUT_FOV_OBS_NUM_DIM_NAME = Some O /\
            var f OUT_FOV_RADIANCE_VAR_NAME = None.
Proof.
  intros mask Hp1 Hp2 Hmin Hm Hnone Hlon Hlat Hoff Hrad Hbase.
  destruct (success_grid_length _ _ _ Hmin Hm) as [_ HM].
  assert (Hlm : length (sd_FOVangle shis) = length mask)
    by (unfold mask, Geometry.angle_mask; rewrite length_map; reflexivity).
  destruct (sd_base_time shis) as [|b bs] eqn:Eb; [congruence|].
  unfold_run. rewrite Hp1, Hp2. cbv beta iota zeta. rewrite Hmin.
  replace (m <? 0) with false by (symmetry; apply Z.ltb_ge; exact Hm).
  fold mask.
  rewrite count_true_all_false by exact Hnone.
  rewrite !bool_index_all_false by (auto; lia).
  pose proof (collect_obs_radiances_ok (sd_radiance shis) [] mask None ltac:(lia)) as C5.
  simpl app in C5. simpl length in C5. rewrite C5, mask_select_all_false by exact Hnone.
  rewrite Eb. simpl np_get.
  unfold np_reshape. simpl fold_left.
  replace (Nat.eqb 1 (0 * length (sd_wavenumber shis))) with false
    by (symmetry; apply Nat.eqb_neq; lia).
  cbv beta iota.
  eexists; split; [reflexivity|]. split; reflexivity.
Qed.

End Dt.
End Claims.


(** ** The stored calendar time *)
Module TimeClaims.
Import Nc Guidebook Conversion Examples.

(** Claim C7, as the code behaves.  [datetime_to_matlab_datenum] computes
    the ordinal of the local date plus 366 plus the seconds since local
    midnight over 86400; for the epoch time 1410000001 (UTC) that is
    735848 + 38401/86400.  The run does not store this value: each value
    passes through the [float32] buffer [matlab_times], so the [f8]
    variable [TimeFracDay] holds it rounded to 24 significant bits, here
    735848.4375 = 11773575/16, for all three selected rows. *)
Theorem stored_datenum_rounded_to_float32 :
  (Time.datetime_to_matlab_datenum (Time.fromtimestamp utc (1410000001 # 1))
     == (735848 # 1) + (38401 # 86400))%Q /\
  var (file_of ex_run) OUT_FOV_MATLAB_DATENUM_TIME_VAR_NAME =
    Some (NcQ [11773575 # 16; 11773575 # 16; 11773575 # 16]) /\
  ~ ((11773575 # 16) == (735848 # 1) + (38401 # 86400))%Q.
Proof.
  split; [|split].
  - vm_compute. reflexivity.
  - vm_compute. reflexivity.
  - vm_compute. discriminate.
Qed.

End TimeClaims.

(** ** Further properties of the code *)
Module MatcherExtras.
Import Matcher MatcherSpec MatcherFacts.

Section Dt.
Context {dtypes : Float.Dtypes}.

(** Each matched desired value gets a grid channel at minimal distance,
    over the whole grid (not only its two neighbours), when the grid is
    positive with neighbours within a factor of two and all values are
    values of [wnum_arith], so that the matcher's subtractions are exact. *)
Theorem matched_channel_is_nearest (temp_wnums desired_wnums : list Z) (j k : nat) :
  strictly_ascending temp_wnums ->
  0 < nth 0 temp_wnums 0 ->
  (forall i, (S i < length temp_wnums)%nat -> nth (S i) temp_wnums 0 <= 2 * nth i temp_wnums 0) ->
  Forall (fun w => Float.fl Float.wnum_arith w = w) temp_wnums ->
  Forall (fun w => Float.fl Float.wnum_arith w = w) desired_wnums ->
  (j < length desired_wnums)%nat ->
  nth j (found_indexes temp_wnums desired_wnums) 0 <> -1 ->
  (k < length temp_wnums)%nat ->
  (Z.to_nat (nth j (found_indexes temp_wnums desired_wnums) 0%Z) < length temp_wnums)%nat /\
  Z.abs (nth (Z.to_nat (nth j (found_indexes temp_wnums desired_wnums) 0)) temp_wnums 0
         - nth j desired_wnums 0) <=
  Z.abs (nth k temp_wnums 0 - nth j desired_wnums 0).
Proof.
  intros Hasc Hpos Hratio Fg Fd Hj Hmatched Hk.
  pose proof (scan_final temp_wnums desired_wnums) as Hinv.
  unfold found_indexes in *. destruct (match_scan temp_wnums desired_wnums) as [f ct].
  simpl in Hinv, Hmatched |- *. destruct Hinv as (Hlen & Hn & Hct & Hfree & Hch & _).
  destruct (Nat.lt_ge_cases j ct) as [Hjct|Hjct];
    [|exfalso; apply Hmatched, Hfree; lia].
  destruct (Hch j Hjct) as (idx & Hidx & Hc).
  assert (Fx : Float.fl Float.wnum_arith (nth j desired_wnums 0) = nth j desired_wnums 0).
  { rewrite Forall_forall in Fd. apply Fd, nth_In. exact Hj. }
  assert (Fi : Float.fl Float.wnum_arith (nth idx temp_wnums 0) = nth idx temp_wnums 0).
  { rewrite Forall_forall in Fg. apply Fg, nth_In. lia. }
  assert (Fi1 : Float.fl Float.wnum_arith (nth (S idx) temp_wnums 0) = nth (S idx) temp_wnums 0).
  { rewrite Forall_forall in Fg. apply Fg, nth_In. lia. }
  pose proof (Hratio idx ltac:(lia)) as Hr.
  pose proof (ascending_le _ 0 idx Hasc ltac:(lia)) as H0.
  set (x := nth j desired_wnums 0) in *. clearbody x.
  pose proof (ascending_lt _ idx (S idx) Hasc ltac:(lia)) as Hstep.
  assert (Hfar : Z.abs (nth k temp_wnums 0 - x) >=
                 Z.min (Z.abs (nth idx temp_wnums 0 - x)) (Z.abs (nth (S idx) temp_wnums 0 - x))).
  { destruct (chosen_between _ _ _ _ Hc) as [E|[E|E]];
      (destruct (Nat.le_gt_cases k idx) as [Hki|Hki];
       [pose proof (ascending_le _ k idx Hasc ltac:(lia))
       |pose proof (ascending_le _ (S idx) k Hasc ltac:(lia))]); lia. }
  unfold MatcherSpec.chosen in Hc.
  destruct Hc as [[E ->]|[[_ [E ->]]|[_ [_ [Hb ->]]]]].
  - rewrite Nat2Z.id. split; [lia|]. lia.
  - rewrite Nat2Z.id. split; [lia|]. lia.
  - rewrite (FloatFacts.fl_sub_exact _ x (nth idx temp_wnums 0)) by (try assumption; lia).
    rewrite (FloatFacts.fl_sub_exact _ (nth (S idx) temp_wnums 0) x) by (try assumption; lia).
    destruct (Z.ltb_spec (x - nth idx temp_wnums 0) (nth (S idx) temp_wnums 0 - x))
      as [Hlt|Hge]; rewrite Nat2Z.id.
    + split; [lia|].
      rewrite Z.min_l in Hfar by lia. lia.
    + split; [lia|].
      rewrite Z.min_r in Hfar by lia. lia.
Qed.

End Dt.
End MatcherExtras.

Module ConversionExtras.
Import Np Nc Guidebook Conversion MatcherFacts ConversionFacts.

Section Dt.
Context {dtypes : Float.Dtypes}.

Lemma insert_sorted_length x l : length (insert_sorted x l) = S (length l).
Proof. induction l as [|y l IH]; simpl; [reflexivity|]. destruct (x <=? y); simpl; auto. Qed.

Lemma np_sort_length l : length (np_sort l) = length l.
Proof. induction l as [|y l IH]; simpl; [reflexivity|]. rewrite insert_sorted_length; auto. Qed.

Lemma bind_ok_inv {A B} (m : FovM A) (k : A -> FovM B) s b s'' :
  Nc.bind m k s = (Ok b, s'') -> exists a s', m s = (Ok a, s') /\ k a s' = (Ok b, s'').
Proof. unfold Nc.bind. destruct (m s) as [[a|e] s']; [eauto|discriminate]. Qed.

(** One step of a run that succeeded: the call before the next [let*]
    returned a value, recorded as an equation. *)
Ltac step_run H :=
  match type of H with
  | (if ?c then _ else _) _ = _ =>
      let Hc := fresh "Hc" in destruct c eqn:Hc
  | Nc.bind _ _ _ = _ =>
      let a := fresh "a" in let s := fresh "s" in let Ha := fresh "Ha" in
      apply bind_ok_inv in H; destruct H as (a & s & Ha & H);
      unfold Nc.lift, Nc.create, Nc.create_dimension, Nc.write_var in Ha;
      injection Ha; clear Ha; intros; subst s; try subst a
  end.

(** An empty desired wavenumber list: [numpy.min] of the empty
    [found_indexes] raises [ValueError] before [fov.nc] is opened, so the
    output state is left as it was. *)
Theorem empty_desired_raises tz options shis s0 p1 p2 :
  shis_input options = Some p1 -> wnum_input options = Some p2 ->
  create_fov_file tz options shis [] s0 = (Err ValueError, s0).
Proof.
  intros Hp1 Hp2.
  assert (E : Matcher.found_indexes (sd_wavenumber shis) (np_sort []) = []).
  { apply length_zero_iff_nil. rewrite found_indexes_length. reflexivity. }
  unfold create_fov_file. rewrite Hp1, Hp2. cbv zeta. rewrite E. reflexivity.
Qed.

(** The loop visits [M - 1] grid indexes and matches at most one desired
    value at each, so a desired list with at least as many entries as the
    grid (in particular any non-empty list against a grid of one channel)
    can never be fully matched: the run returns without writing. *)
Theorem too_many_desired_aborts tz options shis wn s0 :
  wn <> [] -> (length (sd_wavenumber shis) <= length wn)%nat ->
  create_fov_file tz options shis wn s0 = (Ok tt, s0).
Proof.
  intros Hne Hlen. apply run_sentinel_returns.
  set (g := sd_wavenumber shis). set (d := np_sort wn).
  assert (Hd : length d = length wn) by apply np_sort_length.
  assert (Hwn : (1 <= length wn)%nat) by (destruct wn; [congruence|simpl; lia]).
  pose proof (matched_count_bound g d) as Hb.
  rewrite <- (unmatched_from_cursor g d (snd (Matcher.match_scan g d)))
    by (fold g in Hlen; lia).
  apply nth_In. rewrite found_indexes_length. fold g in Hlen. lia.
Qed.


(** A successful run from no previous file writes the three dimensions
    [obsnum], [channels] and [selected_channels] (number of selected
    observations, of grid channels, of desired wavenumbers), the full grid
    as [Wavenumber], and 1-based channel indexes [indxselchannel] in
    [[1, M]] with [SelWavenumber[j] = Wavenumber[indxselchannel[j] - 1]]. *)
Theorem output_channel_variables tz options shis wn f :
  create_fov_file tz options shis wn None = (Ok tt, Some f) ->
  exists indx,
    nc_dims f = [(OUT_FOV_OBS_NUM_DIM_NAME,
                  length (filter (fun b => b)
                            (Geometry.angle_mask (sd_FOVangle shis)
                               (center_fov_angle options) (fov_angle_range options))));
                 (OUT_FOV_NUM_CHANNELS_DIM_NAME, length (sd_wavenumber shis));
                 (OUT_FOV_NUM_SELECTED_CHANNELS_DIM_NAME, length wn)] /\
    var f OUT_FOV_WAVE_NUMBER_VAR_NAME = Some (NcZ (sd_wavenumber shis)) /\
    var f OUT_FOV_SELECTED_CHANNEL_IDX_VAR_NAME = Some (NcZ indx) /\
    length indx = length wn /\
    Forall (fun i => 1 <= i <= Z.of_nat (length (sd_wavenumber shis))) indx /\
    var f OUT_FOV_SELECTED_WAVE_NUMBER_VAR_NAME =
      Some (NcZ (map (fun i => nth (Z.to_nat (i - 1)) (sd_wavenumber shis) 0) indx)).
Proof.
  intros H. unfold create_fov_file in H.
  destruct (shis_input options), (wnum_input options); try discriminate H.
  cbv zeta in H. repeat step_run H; try discriminate H.
  unfold Nc.ret in H. injection H as Hf. subst f.
  set (g := sd_wavenumber shis) in *.
  set (cim := Matcher.found_indexes g (np_sort wn)) in *.
  match goal with Hmin : np_min cim = Ok ?m, Hneg : (?m <? 0) = false |- _ =>
    assert (Hm0 : 0 <= m) by (apply Z.ltb_ge; exact Hneg);
    pose proof (success_all_matched _ _ _ Hmin Hm0) as Hall end.
  pose proof (scan_final g (np_sort wn)) as Hinv.
  assert (Hb : Forall (fun i => 0 <= i < Z.of_nat (length g)) cim).
  { apply Forall_forall. intros i Hi. destruct (In_nth _ _ 0 Hi) as (j & Hj & <-).
    unfold cim, Matcher.found_indexes in *. destruct (Matcher.match_scan g (np_sort wn)) as [fi ct].
    simpl in *. destruct Hinv as (Hlen & Hn & _ & _ & _ & Hrng & _).
    specialize (Hrng j ltac:(lia)). lia. }
  match goal with Hsel : fancy_index g cim = Ok _ |- _ =>
    rewrite (fancy_index_in_range _ 0 _ Hb) in Hsel; injection Hsel as <- end.
  exists (map (fun i => i + 1) cim).
  unfold var, OUT_FOV_LON_VAR_NAME, OUT_FOV_LAT_VAR_NAME, OUT_FOV_FOV_ANGLE_VAR_NAME,
    OUT_FOV_TIME_OFFSET_VAR_NAME, OUT_FOV_MATLAB_DATENUM_TIME_VAR_NAME,
    OUT_FOV_RADIANCE_VAR_NAME, OUT_FOV_SELECTED_RADIANCE_VAR_NAME,
    OUT_FOV_BASE_TIME_VAR_NAME, OUT_FOV_WAVE_NUMBER_VAR_NAME,
    OUT_FOV_SELECTED_WAVE_NUMBER_VAR_NAME, OUT_FOV_SELECTED_CHANNEL_IDX_VAR_NAME.
  simpl. rewrite count_true_filter.
  split; [|split; [reflexivity|split; [reflexivity|split; [|split]]]].
  - unfold cim. rewrite found_indexes_length, np_sort_length. reflexivity.
  - unfold cim. rewrite length_map, found_indexes_length, np_sort_length. reflexivity.
  - rewrite Forall_map. eapply Forall_impl; [|exact Hb]. simpl. intros i Hi. lia.
  - rewrite map_map. f_equal. f_equal. apply map_ext. intros i.
    f_equal. f_equal. lia.
Qed.


End Dt.
End ConversionExtras.

Module CleanPathFacts.
Import String Ascii PosixPath.
Local Open Scope string_scope.

Fixpoint has_slash (s : string) : bool :=
  match s with
  | EmptyString => false
  | String c rest => Ascii.eqb c "/"%char || has_slash rest
  end.

(** A component of a normalised path: not empty, not [.], not [..], no [/]. *)
Definition normal_component (c : string) : Prop :=
  c <> "" /\ c <> "." /\ c <> ".." /\ has_slash c = false.

Lemma split_nonnil (s : string) : split s <> [].
Proof.
  induction s as [|c s IH]; simpl; [discriminate|].
  destruct (Ascii.eqb c "/"%char); [discriminate|].
  destruct (split s); discriminate.
Qed.

Lemma split_no_slash (s : string) : Forall (fun w => has_slash w = false) (split s).
Proof.
  induction s as [|c s IH]; simpl; [repeat constructor|].
  destruct (Ascii.eqb c "/"%char) eqn:Ec; [constructor; [reflexivity|exact IH]|].
  destruct (split s) as [|w ws]; [constructor; [simpl; rewrite Ec; reflexivity|constructor]|].
  inversion IH; subst. constructor; [simpl; rewrite Ec; assumption|assumption].
Qed.

Lemma split_app_slash (w t : string) :
  has_slash w = false -> split (w ++ String "/"%char t) = w :: split t.
Proof.
  induction w as [|c w IH]; intros H; [reflexivity|].
  simpl in H. apply orb_false_iff in H as [Hc Hw].
  simpl. rewrite Hc, (IH Hw). reflexivity.
Qed.

Lemma split_single (w : string) : has_slash w = false -> split w = [w].
Proof.
  induction w as [|c w IH]; intros H; [reflexivity|].
  simpl in H. apply orb_false_iff in H as [Hc Hw].
  simpl. rewrite Hc, (IH Hw). reflexivity.
Qed.

Lemma split_join (comps : list string) :
  comps <> [] -> Forall (fun w => has_slash w = false) comps -> split (join_slash comps) = comps.
Proof.
  induction comps as [|w ws IH]; intros Hne Hf; [congruence|].
  inversion Hf; subst. destruct ws as [|w2 ws].
  - simpl. apply split_single; assumption.
  - change (join_slash (w :: w2 :: ws)) with (w ++ String "/"%char (join_slash (w2 :: ws))).
    rewrite split_app_slash by assumption. rewrite IH by (discriminate || assumption). reflexivity.
Qed.

Lemma last_in {A} (l : list A) (d : A) : l <> [] -> In (last l d) l.
Proof.
  induction l as [|a l IH]; intros H; [congruence|].
  destruct l as [|b l]; [left; reflexivity|]. right. apply IH. discriminate.
Qed.

Lemma Forall_removelast {A} (P : A -> Prop) (l : list A) : Forall P l -> Forall P (removelast l).
Proof.
  induction l as [|a l IH]; intros H; [constructor|].
  inversion H; subst. destruct l as [|b l]; [constructor|].
  simpl. constructor; [assumption|]. apply IH. assumption.
Qed.

Lemma string_eqb_neq (s t : string) : s <> t -> (s =? t) = false.
Proof. intros H. apply String.eqb_neq. exact H. Qed.

(** Rooted normalisation keeps only normal components. *)
Lemma fold_normal (k : nat) (l acc : list string) :
  (0 < k)%nat -> Forall normal_component acc -> Forall (fun w => has_slash w = false) l ->
  Forall normal_component (fold_left (normpath_step k) l acc).
Proof.
  intros Hk. revert acc. induction l as [|comp l IH]; intros acc Hacc Hl; [exact Hacc|].
  inversion Hl; subst. simpl. apply IH; [|assumption].
  unfold normpath_step.
  destruct (comp =? "") eqn:E1; [exact Hacc|].
  destruct (comp =? ".") eqn:E2; [exact Hacc|]. simpl.
  destruct (comp =? "..") eqn:E3; simpl.
  - replace (Nat.eqb k 0) with false by (symmetry; apply Nat.eqb_neq; lia). simpl.
    destruct acc as [|a acc']; [exact Hacc|]. cbv beta iota.
    assert (Hl' : last (a :: acc') "" <> "..").
    { assert (Hin : In (last (a :: acc') "") (a :: acc')) by (apply last_in; discriminate).
      rewrite Forall_forall in Hacc. apply Hacc in Hin. apply Hin. }
    rewrite (string_eqb_neq _ _ Hl'). simpl orb. cbv iota.
    apply Forall_removelast. exact Hacc.
  - apply Forall_app. split; [exact Hacc|]. constructor; [|constructor].
    apply String.eqb_neq in E1, E2, E3. repeat split; assumption.
Qed.

(** Normal components go through the loop unchanged. *)
Lemma fold_keep (k : nat) (comps acc : list string) :
  Forall normal_component comps -> fold_left (normpath_step k) comps acc = (acc ++ comps)%list.
Proof.
  revert acc. induction comps as [|c cs IH]; intros acc Hc; [rewrite app_nil_r; reflexivity|].
  inversion Hc as [|c' cs' Hc' Hcs]; subst. destruct Hc' as [H1 [H2 [H3 _]]].
  simpl. unfold normpath_step.
  rewrite (string_eqb_neq _ _ H1), (string_eqb_neq _ _ H2), (string_eqb_neq _ _ H3). simpl.
  rewrite IH by assumption. rewrite <- app_assoc. reflexivity.
Qed.

Lemma slashes_nonempty (k : nat) (s : string) : (0 < k)%nat -> (slashes k ++ s =? "") = false.
Proof. intros Hk. destruct k; [lia|]. reflexivity. Qed.

(** [normpath] of a rooted path: one or two slashes and normal components. *)
Lemma normpath_rooted (path : string) :
  isabs path = true ->
  exists k comps, (k = 1 \/ k = 2)%nat /\ Forall normal_component comps /\
    normpath path = slashes k ++ join_slash comps.
Proof.
  intros Habs. unfold isabs in Habs. unfold normpath.
  destruct path as [|c p]; [discriminate|]. change (String c p =? "") with false. cbv iota.
  rewrite Habs.
  set (k := if prefix "//" (String c p) && negb (prefix "///" (String c p)) then 2%nat else 1%nat).
  assert (Hk : (k = 1 \/ k = 2)%nat) by (unfold k; destruct (_ && _); auto).
  exists k, (fold_left (normpath_step k) (split (String c p)) []).
  split; [exact Hk|]. split.
  - apply fold_normal; [lia|constructor|apply split_no_slash].
  - rewrite slashes_nonempty by lia. reflexivity.
Qed.

Lemma join_head (a : ascii) (c : string) (cs : list string) :
  exists r, join_slash (String a c :: cs) = String a r.
Proof. destruct cs; simpl; eexists; reflexivity. Qed.

(** [normpath] leaves its own results unchanged. *)
Lemma normpath_fixed (k : nat) (comps : list string) :
  (k = 1 \/ k = 2)%nat -> Forall normal_component comps ->
  normpath (slashes k ++ join_slash comps) = slashes k ++ join_slash comps.
Proof.
  intros Hk Hc. destruct comps as [|c cs].
  - destruct Hk; subst; reflexivity.
  - inversion Hc as [|c'' cs' Hc' Hcs]; subst. destruct Hc' as [H1 [H2 [H3 H4]]].
    destruct c as [|a c']; [congruence|].
    simpl in H4. apply orb_false_iff in H4 as [Ha Hc'].
    assert (Hsplit : split (join_slash (String a c' :: cs)) = String a c' :: cs).
    { apply split_join; [discriminate|]. constructor.
      - simpl. rewrite Ha. exact Hc'.
      - eapply Forall_impl; [|exact Hcs]. intros w [_ [_ [_ Hw]]]. exact Hw. }
    destruct (join_head a c' cs) as [r Hr].
    assert (Hpa : prefix "/" (String a r) = false).
    { change (prefix "/" (String a r)) with (if ascii_dec "/"%char a then prefix "" r else false).
      destruct (ascii_dec "/"%char a) as [E|E]; [|reflexivity].
      subst a. rewrite Ascii.eqb_refl in Ha. discriminate. }
    rewrite Hr in Hsplit |- *.
    destruct Hk as [Hk|Hk]; subst k.
    + change (slashes 1 ++ String a r) with (String "/"%char (String a r)).
      unfold normpath. change (String "/"%char (String a r) =? "") with false.
      change (prefix "/" (String "/"%char (String a r))) with true.
      change (prefix "//" (String "/"%char (String a r))) with (prefix "/" (String a r)).
      rewrite Hpa. cbn [andb negb].
      change (split (String "/"%char (String a r))) with ("" :: split (String a r)).
      rewrite Hsplit.
      change (fold_left ?f ("" :: ?l) ?acc) with (fold_left f l (f acc "")).
      change (normpath_step 1 [] "") with (@nil string).
      rewrite fold_keep by assumption. rewrite <- Hr.
      change (slashes 1 ++ join_slash ([] ++ String a c' :: cs)%list)
        with (String "/"%char (join_slash (String a c' :: cs))).
      rewrite Hr. reflexivity.
    + change (slashes 2 ++ String a r) with (String "/"%char (String "/"%char (String a r))).
      unfold normpath. change (String "/"%char (String "/"%char (String a r)) =? "") with false.
      change (prefix "/" (String "/"%char (String "/"%char (String a r)))) with true.
      change (prefix "//" (String "/"%char (String "/"%char (String a r)))) with true.
      change (prefix "///" (String "/"%char (String "/"%char (String a r))))
        with (prefix "/" (String a r)).
      rewrite Hpa. cbn [andb negb].
      change (split (String "/"%char (String "/"%char (String a r))))
        with ("" :: "" :: split (String a r)).
      rewrite Hsplit.
      change (fold_left ?f ("" :: "" :: ?l) ?acc) with (fold_left f l (f (f acc "") "")).
      change (normpath_step 2 (normpath_step 2 [] "") "") with (@nil string).
      rewrite fold_keep by assumption. rewrite <- Hr.
      change (slashes 2 ++ join_slash ([] ++ String a c' :: cs)%list)
        with (String "/"%char (String "/"%char (join_slash (String a c' :: cs)))).
      rewrite Hr. reflexivity.
Qed.

Lemma prefix_slash_app (s t : string) : prefix "/" s = true -> prefix "/" (s ++ t) = true.
Proof.
  destruct s as [|a s]; [discriminate|].
  change (prefix "/" (String a s)) with (if ascii_dec "/"%char a then prefix "" s else false).
  change (String a s ++ t) with (String a (s ++ t)).
  change (prefix "/" (String a (s ++ t))) with (if ascii_dec "/"%char a then prefix "" (s ++ t) else false).
  destruct (ascii_dec "/"%char a); [destruct (s ++ t); reflexivity|discriminate].
Qed.

Lemma abspath_input_rooted (cwd p : string) :
  isabs cwd = true -> isabs (if negb (isabs p) then join cwd p else p) = true.
Proof.
  intros Hc. destruct (isabs p) eqn:Hp; [exact Hp|]. simpl. unfold join.
  unfold isabs in Hp. rewrite Hp.
  destruct ((cwd =? "") || endswith_slash cwd); unfold isabs; apply prefix_slash_app; exact Hc.
Qed.

End CleanPathFacts.

Module CleanPathExtras.
Import String Ascii PosixPath CleanPath CleanPathFacts.
Local Open Scope string_scope.

Section CleanPath.
Variable expanduser : string -> string.
Variable cwd : string.
Hypothesis cwd_absolute : isabs cwd = true.

(** [clean_path] of a path always gives an absolute path: one or two
    leading slashes followed by components that are neither empty nor [.]
    nor [..]. *)
Theorem clean_path_normal (p : string) :
  exists k comps, (k = 1 \/ k = 2)%nat /\ Forall normal_component comps /\
    clean_path expanduser cwd (Some p) = Some (slashes k ++ join_slash comps).
Proof.
  destruct (normpath_rooted _ (abspath_input_rooted cwd (expanduser p) cwd_absolute))
    as (k & comps & Hk & Hc & E).
  exists k, comps. split; [exact Hk|]. split; [exact Hc|].
  unfold clean_path, abspath. rewrite E. reflexivity.
Qed.

Hypothesis expanduser_plain : forall p, prefix "~" p = false -> expanduser p = p.

(** Cleaning a cleaned path changes nothing. *)
Theorem clean_path_idempotent (sp : option string) :
  clean_path expanduser cwd (clean_path expanduser cwd sp) = clean_path expanduser cwd sp.
Proof.
  destruct sp as [p|]; [|reflexivity].
  destruct (clean_path_normal p) as (k & comps & Hk & Hc & E). rewrite E.
  unfold clean_path. f_equal.
  assert (Hs : exists r, slashes k ++ join_slash comps = String "/"%char r)
    by (destruct Hk; subst; eexists; reflexivity).
  destruct Hs as [r Hr].
  rewrite expanduser_plain by (rewrite Hr; reflexivity).
  unfold abspath. replace (isabs (slashes k ++ join_slash comps)) with true
    by (rewrite Hr; destruct r; reflexivity).
  simpl negb. cbv iota. apply normpath_fixed; assumption.
Qed.

End CleanPath.
End CleanPathExtras.

Module TimeExtras.
Import Time.
Local Open Scope Q_scope.

Lemma Qfloor_bounds (q : Q) : inject_Z (Qfloor q) <= q /\ q < inject_Z (Qfloor q) + 1.
Proof.
  split; [apply Qfloor_le|]. pose proof (Qlt_floor q) as H.
  rewrite inject_Z_plus in H. exact H.
Qed.

Lemma round_half_even_comp (q1 q2 : Q) : q1 == q2 -> round_half_even q1 = round_half_even q2.
Proof.
  intros H. unfold round_half_even. rewrite (Qfloor_comp _ _ H).
  assert (E : q1 - inject_Z (Qfloor q2) == q2 - inject_Z (Qfloor q2)) by (rewrite H; reflexivity).
  rewrite (Qcompare_comp _ _ E (1 # 2) (1 # 2) (Qeq_refl _)). reflexivity.
Qed.

Lemma round_half_even_error (q : Q) : Qabs (inject_Z (round_half_even q) - q) <= 1 # 2.
Proof.
  unfold round_half_even. set (fl := Qfloor q).
  destruct (Qfloor_bounds q) as [F1 F2]. fold fl in F1, F2.
  apply Qabs_Qle_condition.
  assert (I1 : inject_Z (fl + 1) == inject_Z fl + 1) by (rewrite inject_Z_plus; reflexivity).
  destruct (Qcompare_spec (q - inject_Z fl) (1 # 2)) as [E|E|E];
    [destruct (Z.even fl)|..]; rewrite ?I1; lra.
Qed.

(** For [2^19 <= q < 2^20] the [float32] rounding keeps 4 bits after the
    point: it is the nearest multiple of 1/16, ties to even. *)
Lemma f32_round_sixteenth (q : Q) :
  inject_Z (2 ^ 19) <= q -> q < inject_Z (2 ^ 20) ->
  f32_round q == inject_Z (round_half_even (q * 16)) * (1 # 16).
Proof.
  intros Hlo Hhi. destruct q as [n d].
  unfold Qle, Qlt in Hlo, Hhi. simpl in Hlo, Hhi.
  destruct n as [|p|p]; [lia| |lia].
  unfold f32_round. simpl Qnum. unfold f32_round_pos. simpl Qnum. simpl Qden.
  pose proof (Z.log2_spec (Zpos d) ltac:(lia)) as [D1 D2].
  set (a := Z.log2 (Zpos d)) in *.
  assert (Ha : (0 <= a)%Z) by apply Z.log2_nonneg.
  assert (L1 : (19 + a <= Z.log2 (Zpos p))%Z).
  { rewrite <- (Z.log2_pow2 (19 + a)) by lia. apply Z.log2_le_mono.
    rewrite Z.pow_add_r by lia. nia. }
  assert (L2 : (Z.log2 (Zpos p) < 21 + a)%Z).
  { apply Z.log2_lt_pow2; [lia|]. rewrite Z.pow_add_r by lia.
    replace (a + 1)%Z with (Z.succ a) in D2 by lia. rewrite Z.pow_succ_r in D2 by lia. nia. }
  assert (E16 : (Zpos p # d) / pow2Q (-4) == (Zpos p # d) * 16)
    by (unfold pow2Q; simpl; field).
  assert (E8 : (Zpos p # d) / pow2Q (-3) == (Zpos p # d) * 8)
    by (unfold pow2Q; simpl; field).
  assert (Hq16 : inject_Z (2 ^ 23) <= (Zpos p # d) * 16).
  { unfold Qle, Qmult. simpl. lia. }
  assert (Hq8 : (Zpos p # d) * 8 < inject_Z (2 ^ 23)).
  { unfold Qlt, Qmult. simpl. lia. }
  assert (He : ((Z.log2 (Zpos p) - a - 23) = -4 \/ (Z.log2 (Zpos p) - a - 23) = -3)%Z) by lia.
  destruct He as [He|He]; rewrite He.
  - replace (Qle_bool (inject_Z (2 ^ 23)) ((Zpos p # d) / pow2Q (-4))) with true
      by (symmetry; apply Qle_bool_iff; rewrite E16; exact Hq16).
    simpl negb. cbv iota.
    rewrite (round_half_even_comp _ _ E16). unfold pow2Q. simpl. reflexivity.
  - replace (Qle_bool (inject_Z (2 ^ 23)) ((Zpos p # d) / pow2Q (-3))) with false.
    2:{ symmetry. destruct (Qle_bool _ _) eqn:Eb; [|reflexivity].
        apply Qle_bool_iff in Eb. rewrite E8 in Eb. exfalso. lra. }
    simpl negb. cbv iota. replace (-3 - 1)%Z with (-4)%Z by lia.
    rewrite (round_half_even_comp _ _ E16). unfold pow2Q. simpl. reflexivity.
Qed.

Lemma f32_round_sixteenth_error (q : Q) :
  inject_Z (2 ^ 19) <= q -> q < inject_Z (2 ^ 20) ->
  Qabs (f32_round q - q) <= 1 # 32.
Proof.
  intros Hlo Hhi. rewrite (f32_round_sixteenth q Hlo Hhi).
  pose proof (round_half_even_error (q * 16)) as E.
  apply Qabs_Qle_condition in E. apply Qabs_Qle_condition. lra.
Qed.

(** The value stored in the [f8] variable [OUT_FOV_MATLAB_DATENUM_TIME_VAR_NAME]
    for a datenum between 2^19 and 2^20 (the years 1435 to 2870) is that
    datenum rounded to the nearest multiple of 1/16 day (90 minutes), ties
    to even, so it may be off by up to 45 minutes. *)
Theorem matlab_time_sixteenth_day (tz : Z -> Z) (t : Q) :
  inject_Z (2 ^ 19) <= datetime_to_matlab_datenum (fromtimestamp tz t) ->
  datetime_to_matlab_datenum (fromtimestamp tz t) < inject_Z (2 ^ 20) ->
  Conversion.matlab_time tz t ==
    inject_Z (round_half_even (datetime_to_matlab_datenum (fromtimestamp tz t) * 16)) * (1 # 16) /\
  Qabs (Conversion.matlab_time tz t - datetime_to_matlab_datenum (fromtimestamp tz t)) <= 1 # 32.
Proof.
  intros Hlo Hhi. unfold Conversion.matlab_time. split.
  - apply f32_round_sixteenth; assumption.
  - apply f32_round_sixteenth_error; assumption.
Qed.

End TimeExtras.

(** ** Concrete instances *)
Module Witnesses.
Import Np Nc Guidebook Conversion Examples.
#[local] Existing Instance ex_dtypes.

Lemma ex_grid_ascending : Matcher.strictly_ascending (sd_wavenumber ex_shis).
Proof. intros [|[|[|i]]] Hi; simpl in *; lia. Qed.

Lemma ex_forall_rows :
  Forall (fun row => length row = length (sd_wavenumber ex_shis)) (sd_radiance ex_shis).
Proof. repeat constructor. Qed.

(** Witness of C1 on [ex_run]: observations 1, 2, 3 are kept, and the
    selected radiance row [k] holds columns 0 and 2 of the full row. *)
Lemma subset_row_correspondence_witness :
  var (file_of ex_run) OUT_FOV_LON_VAR_NAME = Some (NcZ [101; 102; 103]) /\
  var (file_of ex_run) OUT_FOV_SELECTED_RADIANCE_VAR_NAME =
    Some (NcZZ [[4; 6]; [7; 9]; [10; 12]]).
Proof.
  destruct (Claims.subset_row_correspondence (dtypes := ex_dtypes) utc (ex_options 0) ex_shis [6712; 6700]
              (file_of ex_run) eq_refl ex_forall_rows ltac:(vm_compute; reflexivity))
    as (Hlon & _ & _ & _ & _ & _ & Hsel).
  split; [exact Hlon | exact Hsel].
Defined.

(** Witness of C2: for [W = [6700; 6706]] the last entry stays [-1]. *)
Lemma self_match_leaves_last_unmatched_witness :
  nth 1 (Matcher.found_indexes [6700; 6706] [6700; 6706]) 0 = -1.
Proof. exact (Claims.self_match_leaves_last_unmatched (dtypes := ex_dtypes) [6700; 6706] ltac:(simpl; lia)). Defined.

(** Witness of C3: 6709.0 is the midpoint of 6706.0 and 6712.0, the
    differences are exact, and it gets index 2. *)
Lemma matched_between_neighbours_witness :
  nth 0 (Matcher.found_indexes [6700; 6706; 6712] [6709]) 0 = 2.
Proof.
  exact (proj2 (MatcherClaims.matched_between_neighbours (dtypes := ex_dtypes) [6700; 6706; 6712] [6709] 1 0
                  ex_grid_ascending ltac:(simpl; lia) ltac:(simpl; lia)
                  ltac:(vm_compute; discriminate) ltac:(simpl; lia))
           ltac:(simpl; lia) ltac:(simpl; lia) ltac:(vm_compute; reflexivity)
           ltac:(vm_compute; reflexivity) ltac:(vm_compute; reflexivity)).
Defined.

(** Counterexample to C3 as stated.  On the exact midpoint 6709.0 of
    6706.0 (index 1) and 6712.0 (index 2) the lower index is not chosen.
    And in [float32] (the grid [[0.5; 16777220.0]] and the desired value
    8388610.0, in units of 1/2) [d - grid[0] = 8388609.5] rounds to
    8388610.0, equal to [grid[1] - d]: the farther index 1 is chosen. *)
Lemma midpoint_goes_to_lower_index_counterexample :
  (6709 - nth 1 [6700; 6706; 6712] 0 = nth 2 [6700; 6706; 6712] 0 - 6709 /\
   nth 0 (Matcher.found_indexes [6700; 6706; 6712] [6709]) 0 <> 1) /\
  (16777220 - 1 < 33554440 - 16777220 /\
   nth 0 (@Matcher.found_indexes ex_f32_halves [1; 33554440] [16777220]) 0 = 1).
Proof.
  split; split.
  - reflexivity.
  - vm_compute. discriminate.
  - lia.
  - vm_compute. reflexivity.
Qed.

(** Witness of C4: 6800.0 is out of the grid, nothing is written. *)
Lemma unmatched_channel_aborts_witness :
  create_fov_file utc (ex_options 0) ex_shis [6800] None = (Ok tt, None).
Proof.
  exact (Claims.unmatched_channel_aborts (dtypes := ex_dtypes) utc (ex_options 0) ex_shis [6800] None
           ltac:(vm_compute; left; reflexivity)).
Defined.

(** Witness of C5: center 100.0 selects no observation. *)
Lemma empty_selection_raises_witness :
  exists f, ex_empty_run = (Err ValueError, Some f) /\
            dim f OUT_FOV_OBS_NUM_DIM_NAME = Some O /\
            var f OUT_FOV_RADIANCE_VAR_NAME = None.
Proof.
  exact (Claims.empty_selection_raises (dtypes := ex_dtypes) utc (ex_options 100) ex_shis [6712; 6700] None
           Paths.shis_path Paths.wnum_path 0 eq_refl eq_refl
           ltac:(vm_compute; reflexivity) ltac:(lia) ltac:(vm_compute; reflexivity)
           eq_refl eq_refl eq_refl eq_refl ltac:(simpl; discriminate)).
Defined.

(** Witness of C6 on [ex_run]: three of the five angles are within 15.0
    of 0.0, and [obsnum] is 3. *)
Lemma angle_mask_and_obs_dimension_witness :
  dim (file_of ex_run) OUT_FOV_OBS_NUM_DIM_NAME = Some 3%nat.
Proof.
  exact (proj2 (proj2 (Claims.angle_mask_and_obs_dimension (dtypes := ex_dtypes) utc (ex_options 0) ex_shis
                         [6712; 6700] (Ok tt) (file_of ex_run)))
           ltac:(vm_compute; reflexivity)).
Defined.

(** Counterexample to C6 as stated, in units of [2^-56]: [c] = 0.1 and
    [r] = 0.2 (doubles), and a [float32] angle 0.3 (0.30000001192...).
    [c + r] is 0.30000000000000004 in [float64], which converts to the
    [float32] 0.3: the angle is kept although it exceeds [c + r]. *)
Lemma angle_mask_exact_bounds_counterexample :
  7205759403792794 + 14411518807585588 < 21617279070371840 /\
  @Geometry.angle_mask ex_f32_angles [21617279070371840]
    7205759403792794 14411518807585588 = [true].
Proof. split; [lia | vm_compute; reflexivity]. Qed.

(** Witness of C8. *)
Lemma found_indexes_monotone_witness :
  nth 0 (Matcher.found_indexes [6700; 6706; 6712] [6700; 6712]) 0 <=
  nth 1 (Matcher.found_indexes [6700; 6706; 6712] [6700; 6712]) 0.
Proof.
  exact (MatcherClaims.found_indexes_monotone (dtypes := ex_dtypes) [6700; 6706; 6712] [6700; 6712] 0
           ltac:(vm_compute; reflexivity) ltac:(lia) 0 ltac:(vm_compute; lia)).
Defined.

(** Witness of C9: 6800.0 lies above the grid; 6700.0 sorts before it. *)
Lemma out_of_range_never_matched_witness :
  create_fov_file utc (ex_options 0) ex_shis [6800; 6700] None = (Ok tt, None).
Proof.
  exact (proj2 (Claims.out_of_range_never_matched (dtypes := ex_dtypes) utc (ex_options 0) ex_shis
                  [6800; 6700] None 6800 ex_grid_ascending ltac:(simpl; auto)
                  ltac:(right; vm_compute; reflexivity))).
Defined.

(** Witness of C10: the row [1; 2; 3] indexed by the found indexes. *)
Lemma found_indexes_in_bounds_witness :
  fancy_index [1; 2; 3] (Matcher.found_indexes [6700; 6706; 6712] [6700; 6712]) =
  Ok [1; 3].
Proof.
  exact (proj2 (MatcherClaims.found_indexes_in_bounds (dtypes := ex_dtypes) [6700; 6706; 6712] [6700; 6712] 0
                  ltac:(vm_compute; reflexivity) ltac:(lia)) [1; 2; 3] eq_refl).
Defined.

End Witnesses.

Module ExtraWitnesses.
Import Np Nc Guidebook Conversion Examples.
#[local] Existing Instance ex_dtypes.
Import String.
Local Open Scope Z_scope.

Lemma ex_expanduser_plain :
  forall p, String.prefix "~"%string p = false -> Env.ex_expanduser p = p.
Proof. intros p H. unfold Env.ex_expanduser. rewrite H. reflexivity. Qed.

(** 6709.0 sits between 6706.0 and 6712.0 and gets channel 2 (6712.0), no
    farther than channel 0 (6700.0). *)
Lemma matched_channel_is_nearest_witness :
  Nat.lt (Z.to_nat (nth 0 (Matcher.found_indexes [6700; 6706; 6712] [6709]) 0)) 3 /\
  Z.abs (nth (Z.to_nat (nth 0 (Matcher.found_indexes [6700; 6706; 6712] [6709]) 0))
           [6700; 6706; 6712] 0 - nth 0 [6709] 0) <=
  Z.abs (nth 0 [6700; 6706; 6712] 0 - nth 0 [6709] 0).
Proof.
  exact (MatcherExtras.matched_channel_is_nearest (dtypes := ex_dtypes) [6700; 6706; 6712] [6709] 0 0
           Witnesses.ex_grid_ascending ltac:(simpl; lia)
           ltac:(intros [|[|i]] Hi; simpl in *; lia)
           ltac:(repeat constructor) ltac:(repeat constructor)
           ltac:(simpl; lia) ltac:(vm_compute; discriminate) ltac:(simpl; lia)).
Defined.

Lemma empty_desired_raises_witness :
  create_fov_file utc (ex_options 0) ex_shis [] None = (Err ValueError, None).
Proof.
  exact (ConversionExtras.empty_desired_raises (dtypes := ex_dtypes) utc (ex_options 0) ex_shis None
           Paths.shis_path Paths.wnum_path eq_refl eq_refl).
Defined.

(** All three grid channels asked for: the run still writes nothing. *)
Lemma too_many_desired_aborts_witness :
  create_fov_file utc (ex_options 0) ex_shis [6700; 6706; 6712] None = (Ok tt, None).
Proof.
  exact (ConversionExtras.too_many_desired_aborts (dtypes := ex_dtypes) utc (ex_options 0) ex_shis
           [6700; 6706; 6712] None ltac:(discriminate) ltac:(simpl; lia)).
Defined.

Lemma output_channel_variables_witness :
  exists indx, var (file_of ex_run) OUT_FOV_SELECTED_CHANNEL_IDX_VAR_NAME = Some (NcZ indx) /\
    Forall (fun i => 1 <= i <= 3) indx.
Proof.
  destruct (ConversionExtras.output_channel_variables (dtypes := ex_dtypes) utc (ex_options 0) ex_shis [6712; 6700]
              (file_of ex_run) ltac:(vm_compute; reflexivity))
    as (indx & _ & _ & Hidx & _ & Hrng & _).
  exists indx. split; [exact Hidx | exact Hrng].
Defined.


(** The base time of [ex_shis], 2014-09-06 10:40 UTC: datenum
    735848.444..., stored as 735848.4375. *)
Lemma matlab_time_sixteenth_day_witness :
  (Qabs (matlab_time utc (1410000000 # 1) -
         Time.datetime_to_matlab_datenum (Time.fromtimestamp utc (1410000000 # 1))) <= 1 # 32)%Q.
Proof.
  exact (proj2 (TimeExtras.matlab_time_sixteenth_day utc (1410000000 # 1)
                  ltac:(vm_compute; intro; discriminate) ltac:(vm_compute; reflexivity))).
Defined.

Lemma clean_path_normal_witness :
  exists k comps, (k = 1 \/ k = 2)%nat /\ Forall CleanPathFacts.normal_component comps /\
    CleanPath.clean_path Env.ex_expanduser Env.ex_cwd (Some "../in_wn.nc"%string) =
      Some (String.append (PosixPath.slashes k) (PosixPath.join_slash comps)).
Proof.
  exact (CleanPathExtras.clean_path_normal Env.ex_expanduser Env.ex_cwd eq_refl
           "../in_wn.nc"%string).
Defined.

Lemma clean_path_idempotent_witness :
  CleanPath.clean_path Env.ex_expanduser Env.ex_cwd
    (CleanPath.clean_path Env.ex_expanduser Env.ex_cwd (Some "~/sweep/../in_wn.nc"%string)) =
  CleanPath.clean_path Env.ex_expanduser Env.ex_cwd (Some "~/sweep/../in_wn.nc"%string).
Proof.
  exact (CleanPathExtras.clean_path_idempotent Env.ex_expanduser Env.ex_cwd eq_refl
           ex_expanduser_plain (Some "~/sweep/../in_wn.nc"%string)).
Defined.

End ExtraWitnesses.
